(** * Version-table builder (sqlalchemy_continuum/table_builder.py)

    A shallow embedding of [TableBuilder]: column reflection, assembly of the
    version table's column list and the final [sa.schema.Table] call.

    Python objects that the builder copies and mutates (columns) live in a
    heap addressed by locations, so that identity ([value is column]) and
    the independence of a copy from its source can be stated.  Exceptions
    are values of [PyResult]; a computation is a function from the state to
    a result and the state it leaves behind. *)

From Stdlib Require Import String Ascii List Bool Arith Lia.
From stdpp Require Import base option list gmap strings.

Local Open Scope string_scope.
Local Open Scope list_scope.

(** ** Results and exceptions *)

Inductive exn : Type :=
| TypeError
| KeyError
| AttributeError
| ArgumentError
| ValueError
| CatalogConflictError
| OtherError (msg : string).

Inductive PyResult (A : Type) : Type :=
| Return (a : A)
| Raise (e : exn).

Arguments Return {A} a.
Arguments Raise {A} e.

(** Configuration values: the string options, the [exclude] collection and
    [None]. *)
Inductive Value : Type :=
| VStr (s : string)
| VList (l : list string)
| VNone.

Definition value_eqb (v w : Value) : bool :=
  match v, w with
  | VStr s, VStr t => String.eqb s t
  | VList l, VList m => bool_decide (l = m)
  | VNone, VNone => true
  | _, _ => false
  end.

(** ** Columns *)

Inductive SqlType : Type :=
| BigInteger
| SmallInteger
| Integer
| OtherType (tyname : string).

(** [BigInteger] and [SmallInteger] are SQLAlchemy's subclasses of
    [Integer]. *)
Definition is_integer_type (ty : SqlType) : bool :=
  match ty with
  | BigInteger | SmallInteger | Integer => true
  | OtherType _ => false
  end.

(** The values [Column.autoincrement] takes: [True], [False], ["auto"] (the
    default) and ["ignore_fk"]. *)
Inductive AutoInc : Type :=
| AutoTrue
| AutoFalse
| AutoAuto
| AutoIgnoreFk.

(** Python truthiness of the flag: only [False] is falsy. *)
Definition truthy_autoinc (a : AutoInc) : bool :=
  match a with
  | AutoFalse => false
  | _ => true
  end.

(** Heap locations. *)
Abbreviation loc := nat.

Module Column.

Record t : Type := mk {
  name : string;
  key : string;
  type_ : SqlType;
  nullable : bool;
  primary_key : bool;
  autoincrement : AutoInc;
  unique : Datatypes.option bool;
  onupdate : Datatypes.option string;
  index : Datatypes.option bool
}.

Definition set_key (v : string) (c : t) : t :=
  mk (name c) v (type_ c) (nullable c) (primary_key c) (autoincrement c)
     (unique c) (onupdate c) (index c).

Definition set_nullable (v : bool) (c : t) : t :=
  mk (name c) (key c) (type_ c) v (primary_key c) (autoincrement c)
     (unique c) (onupdate c) (index c).

Definition set_autoincrement (v : AutoInc) (c : t) : t :=
  mk (name c) (key c) (type_ c) (nullable c) (primary_key c) v
     (unique c) (onupdate c) (index c).

Definition set_unique (v : Datatypes.option bool) (c : t) : t :=
  mk (name c) (key c) (type_ c) (nullable c) (primary_key c)
     (autoincrement c) v (onupdate c) (index c).

Definition set_onupdate (v : Datatypes.option string) (c : t) : t :=
  mk (name c) (key c) (type_ c) (nullable c) (primary_key c)
     (autoincrement c) (unique c) v (index c).

End Column.

(** ** Tables, mapped entities, the manager *)

Module Table.

(** [metadata] names the MetaData object (catalog) the table belongs to;
    [c] is the ordered column collection. *)
Record t : Type := mk {
  name : string;
  metadata : nat;
  c : list loc
}.

End Table.

(** A mapped entity: [mapper_columns] is [sa.inspect(model).columns.items()],
    the attribute keys with the column objects they map. *)
Record Model : Type := mkModel {
  mapper_columns : list (string * loc)
}.

Module Manager.

(** The versioning manager as the builder uses it: the model-scoped
    lookup [option], the default mapping [options] and the exclusion
    policy [is_excluded_column]. *)
Record t : Type := mk {
  option : Datatypes.option Model -> string -> PyResult Value;
  options : gmap string Value;
  is_excluded_column : Model -> loc -> Column.t -> bool
}.

End Manager.

(** ** State and computations *)

Record State : Type := mkState {
  heap : list Column.t;
  catalog : gmap (nat * string) Table.t
}.

Definition M (A : Type) : Type := State -> PyResult A * State.

Definition ret {A} (a : A) : M A := fun st => (Return a, st).

Definition raise {A} (e : exn) : M A := fun st => (Raise e, st).

Definition bind {A B} (m : M A) (k : A -> M B) : M B :=
  fun st =>
    match m st with
    | (Return a, st') => k a st'
    | (Raise e, st') => (Raise e, st')
    end.

Definition lift {A} (r : PyResult A) : M A := fun st => (r, st).

Notation "'let*' x ':=' m 'in' k" := (bind m (fun x => k))
  (at level 10, x name, m at level 100, k at level 200).

(** Attribute access on a column object; a location that holds no column
    has no attributes. *)
Definition getattr (l : loc) : M Column.t :=
  fun st =>
    match heap st !! l with
    | Some col => (Return col, st)
    | None => (Raise AttributeError, st)
    end.

Definition setattr (l : loc) (f : Column.t -> Column.t) : M unit :=
  fun st =>
    match heap st !! l with
    | Some col => (Return tt, mkState (<[l := f col]> (heap st)) (catalog st))
    | None => (Raise AttributeError, st)
    end.

Definition alloc (col : Column.t) : M loc :=
  fun st => (Return (length (heap st)), mkState (heap st ++ [col]) (catalog st)).

(** [sa.Column(name, type_, primary_key=..., nullable=..., index=...,
    autoincrement=...)].  SQLAlchemy's constructor: the key is the name,
    [nullable] defaults to [not primary_key], [unique] and [onupdate] to
    [None]; a name that is not a string is refused. *)
Definition sa_Column (name : Value) (type_ : SqlType) (primary_key : bool)
    (nullable : Datatypes.option bool) (index : Datatypes.option bool)
    (autoincrement : AutoInc) : M loc :=
  match name with
  | VStr n =>
      alloc (Column.mk n n type_ (default (negb primary_key) nullable)
               primary_key autoincrement None None index)
  | _ => raise ArgumentError
  end.

(** [column.copy()]: a new column object with the attributes of the
    source. *)
Definition Column_copy (column : loc) : M loc :=
  let* col := getattr column in alloc col.

(** ** String formatting: [template % name]

    The [%] operator with a single string operand.  Literal text, the
    [%s] slot and the [%%] escape are formatted here.  From any other
    conversion on (flags, widths, [%r], [%d], mapping keys) the result is
    what Python's formatter makes of it, which [format_other] stands for:
    it receives the conversion character, the template after it and the
    operand.  [arg] is the operand while it is still to be consumed. *)
Fixpoint str_format
    (format_other : ascii -> string -> Datatypes.option string
                    -> PyResult string)
    (tpl : string) (arg : Datatypes.option string) : PyResult string :=
  match tpl with
  | EmptyString =>
      match arg with
      | None => Return EmptyString
      | Some _ => Raise TypeError (* not all arguments converted *)
      end
  | String ch rest =>
      if Ascii.eqb ch "%" then
        match rest with
        | EmptyString => Raise ValueError (* incomplete format *)
        | String conv rest' =>
            if Ascii.eqb conv "%" then
              match str_format format_other rest' arg with
              | Return out => Return (String "%" out)
              | Raise e => Raise e
              end
            else if Ascii.eqb conv "s" then
              match arg with
              | Some a =>
                  match str_format format_other rest' None with
                  | Return out => Return (a +:+ out)
                  | Raise e => Raise e
                  end
              | None => Raise TypeError (* not enough arguments *)
              end
            else format_other conv rest' arg
        end
      else
        match str_format format_other rest arg with
        | Return out => Return (String ch out)
        | Raise e => Raise e
        end
  end.

(** A string without the formatting character. *)
Fixpoint percent_free (s : string) : bool :=
  match s with
  | EmptyString => true
  | String ch rest => negb (Ascii.eqb ch "%") && percent_free rest
  end.

(** [value % name]: only a string has the formatting operator. *)
Definition py_mod
    (format_other : ascii -> string -> Datatypes.option string
                    -> PyResult string)
    (v : Value) (name : string) : PyResult string :=
  match v with
  | VStr tpl => str_format format_other tpl (Some name)
  | _ => Raise TypeError
  end.

(** [value in keys] for a list of strings. *)
Definition py_in (v : Value) (keys : list string) : bool :=
  existsb (fun k => value_eqb v (VStr k)) keys.

(** ** The catalog *)

(** Modelled from the spec: [sa.schema.Table(name, metadata, *columns,
    extend_existing=...)] belongs to SQLAlchemy and is not part of the
    repository.  A name that is free in the catalog registers a new table
    with the given columns.  A name that is taken is a catalog conflict
    unless the call extends the existing table, which then keeps its
    identity (catalog entry and name) and receives the given columns after
    its own. *)
Definition sa_Table (name : string) (metadata : nat) (columns : list loc)
    (extend_existing : bool) : M Table.t :=
  fun st =>
    match catalog st !! (metadata, name) with
    | None =>
        let table := Table.mk name metadata columns in
        (Return table,
         mkState (heap st) (<[(metadata, name) := table]> (catalog st)))
    | Some existing =>
        if extend_existing then
          let table :=
            Table.mk (Table.name existing) (Table.metadata existing)
                     (Table.c existing ++ columns) in
          (Return table,
           mkState (heap st) (<[(metadata, name) := table]> (catalog st)))
        else (Raise CatalogConflictError, st)
    end.

(** ** TableBuilder *)

Module TableBuilder.

Record t : Type := mk {
  manager : Manager.t;
  parent_table : Table.t;
  model : Datatypes.option Model
}.

(** A generator: one suspended step per source element, which yields an
    element or skips ([continue]). *)
Definition generator (A : Type) : Type := list (M (Datatypes.option A)).

(** [for x in gen: columns.append(body(x))]: the steps of the generator
    and the loop body run interleaved. *)
Fixpoint for_append (gen : generator loc) (body : loc -> M loc)
    (columns : list loc) : M (list loc) :=
  match gen with
  | [] => ret columns
  | step :: rest =>
      let* yielded := step in
      match yielded with
      | Some column =>
          let* column_copy := body column in
          for_append rest body (columns ++ [column_copy])
      | None => for_append rest body columns
      end
  end.

(** [[c.key for c in columns]] *)
Fixpoint keys_of (columns : list loc) : M (list string) :=
  match columns with
  | [] => ret []
  | c :: rest =>
      let* col := getattr c in
      let* keys := keys_of rest in
      ret (Column.key col :: keys)
  end.

(** [for key, value in items: if value is column: column_copy.key = key] *)
Fixpoint assign_keys (items : list (string * loc)) (column column_copy : loc)
    : M unit :=
  match items with
  | [] => ret tt
  | (key, value) :: rest =>
      let* _ :=
        if Nat.eqb value column
        then setattr column_copy (Column.set_key key)
        else ret tt in
      assign_keys rest column column_copy
  end.

Section Builder.

(** [column in names] for a column object and a list of names: Python's
    list membership, decided by the column's own comparison with each
    name. *)
Variable column_in : loc -> Column.t -> list string -> bool.

(** The plugin hook [manager.plugins.after_build_version_table_columns];
    it receives the builder and the column list, which it may change in
    place: the list it leaves is its result here. *)
Variable after_build_version_table_columns : t -> list loc -> M (list loc).

(** Python's formatter on the conversions [str_format] leaves to it. *)
Variable format_other :
  ascii -> string -> Datatypes.option string -> PyResult string.

(** [column in container]: a list is searched; a string takes only a
    string on the left and [None] is no container, both a [TypeError]. *)
Definition contains (column : loc) (col : Column.t) (container : Value)
    : PyResult bool :=
  match container with
  | VList names => Return (column_in column col names)
  | VStr _ => Raise TypeError
  | VNone => Raise TypeError
  end.

Definition option (self : t) (name : string) : PyResult Value :=
  match Manager.option (manager self) (model self) name with
  | Raise TypeError =>
      match Manager.options (manager self) !! name with
      | Some v => Return v
      | None => Raise KeyError
      end
  | r => r
  end.

Definition table_name (self : t) : PyResult string :=
  match option self "table_name" with
  | Return template =>
      py_mod format_other template (Table.name (parent_table self))
  | Raise e => Raise e
  end.

(** One turn of the loop of [parent_columns] on [column]. *)
Definition parent_columns_step (self : t) (column : loc)
    : M (Datatypes.option loc) :=
  let* skip1 :=
    match model self with
    | Some m =>
        let* col := getattr column in
        ret (Manager.is_excluded_column (manager self) m column col)
    | None => ret false
    end in
  if skip1 then ret None
  else
    let* skip2 :=
      match model self with
      | Some _ => ret false
      | None =>
          match Manager.options (manager self) !! "exclude" with
          | Some exclude =>
              let* col := getattr column in
              lift (contains column col exclude)
          | None => raise KeyError
          end
      end in
    if skip2 then ret None else ret (Some column).

Definition parent_columns (self : t) : generator loc :=
  map (parent_columns_step self) (Table.c (parent_table self)).

Definition reflect_column (self : t) (column : loc) : M loc :=
  let* column_copy := Column_copy column in
  let* _ := setattr column_copy (Column.set_unique (Some false)) in
  let* _ := setattr column_copy (Column.set_onupdate None) in
  let* col := getattr column_copy in
  let* _ :=
    if truthy_autoinc (Column.autoincrement col)
    then setattr column_copy (Column.set_autoincrement AutoFalse)
    else ret tt in
  let* col := getattr column_copy in
  let* transaction_column_name :=
    lift (option self "transaction_column_name") in
  let* _ :=
    if value_eqb (VStr (Column.name col)) transaction_column_name
    then setattr column_copy (Column.set_nullable false)
    else ret tt in
  let* col := getattr column_copy in
  let* _ :=
    if negb (Column.primary_key col)
    then setattr column_copy (Column.set_nullable true)
    else ret tt in
  let* _ :=
    match model self with
    | Some m => assign_keys (mapper_columns m) column column_copy
    | None => ret tt
    end in
  ret column_copy.

Definition reflected_columns (self : t) : M (list loc) :=
  let* transaction_column_name :=
    lift (option self "transaction_column_name") in
  let* columns :=
    for_append (parent_columns self) (reflect_column self) [] in
  let* keys := keys_of columns in
  if negb (py_in transaction_column_name keys) then
    let* column :=
      sa_Column transaction_column_name BigInteger false None None
                AutoAuto in
    ret (columns ++ [column])
  else ret columns.

Definition operation_type_column (self : t) : M loc :=
  let* name := lift (option self "operation_type_column_name") in
  sa_Column name SmallInteger false (Some false) (Some true) AutoAuto.

Definition transaction_column (self : t) : M loc :=
  let* name := lift (option self "transaction_column_name") in
  sa_Column name BigInteger true None (Some true) AutoFalse.

Definition end_transaction_column (self : t) : M loc :=
  let* name := lift (option self "end_transaction_column_name") in
  sa_Column name BigInteger false None (Some true) AutoAuto.

Definition columns (self : t) : M (list loc) :=
  let* data := reflected_columns self in
  let* column := transaction_column self in
  let data := data ++ [column] in
  let* strategy := lift (option self "strategy") in
  let* data :=
    if value_eqb strategy (VStr "validity") then
      let* column := end_transaction_column self in
      ret (data ++ [column])
    else ret data in
  let* column := operation_type_column self in
  ret (data ++ [column]).

(** [self.columns if extends is None else []], the column list
    [__call__] starts from. *)
Definition base_columns (self : t) (extends : Datatypes.option Table.t)
    : M (list loc) :=
  match extends with
  | None => columns self
  | Some _ => ret []
  end.

Definition __call__ (self : t) (extends : Datatypes.option Table.t)
    : M Table.t :=
  let* columns := base_columns self extends in
  let* columns := after_build_version_table_columns self columns in
  let* name :=
    match extends with
    | Some existing => ret (Table.name existing)
    | None => lift (table_name self)
    end in
  sa_Table name (Table.metadata (parent_table self)) columns
           (bool_decide (extends <> None)).

End Builder.

End TableBuilder.

(** ** What a run leaves on the heap, in closed form

    The definitions below describe the columns a successful run allocates.
    The lemmas after them prove that the builder computes exactly these. *)

Section ClosedForms.

Variable column_in : loc -> Column.t -> list string -> bool.
Variable self : TableBuilder.t.

(** The key [assign_keys] leaves: the last attribute key mapped to the
    source column, the copied key when there is none. *)
Definition mapped_key (items : list (string * loc)) (column : loc)
    (start : string) : string :=
  fold_left (fun k item => if Nat.eqb (snd item) column then fst item else k)
            items start.

Definition reflected_key (column : loc) (col : Column.t) : string :=
  match TableBuilder.model self with
  | Some m => mapped_key (mapper_columns m) column (Column.key col)
  | None => Column.key col
  end.

(** The copy [reflect_column] returns for the source [col] at [column],
    when the transaction-column option reads [txv]. *)
Definition reflected (txv : Value) (column : loc) (col : Column.t)
    : Column.t :=
  Column.mk (Column.name col) (reflected_key column col) (Column.type_ col)
    (if Column.primary_key col
     then (if value_eqb (VStr (Column.name col)) txv
           then false else Column.nullable col)
     else true)
    (Column.primary_key col) AutoFalse (Some false) None (Column.index col).

(** The exclusion test of [parent_columns] on a live column. *)
Definition excluded (h : list Column.t) (column : loc) : bool :=
  match h !! column with
  | Some col =>
      match TableBuilder.model self with
      | Some m =>
          Manager.is_excluded_column (TableBuilder.manager self) m column col
      | None =>
          match Manager.options (TableBuilder.manager self) !! "exclude" with
          | Some (VList names) => column_in column col names
          | _ => false
          end
      end
  | None => false
  end.

(** The default options hold a list of names under [exclude] whenever the
    exclusion test reads it, that is when no mapped entity is supplied. *)
Definition exclude_available : Prop :=
  TableBuilder.model self = None ->
  exists names,
    Manager.options (TableBuilder.manager self) !! "exclude"
    = Some (VList names).

(** The parent columns that are reflected, in the parent's order. *)
Definition kept (h : list Column.t) : list loc :=
  List.filter (fun column => negb (excluded h column))
              (Table.c (TableBuilder.parent_table self)).

Fixpoint reflections (txv : Value) (h : list Column.t) (sources : list loc)
    : list Column.t :=
  match sources with
  | [] => []
  | column :: rest =>
      match h !! column with
      | Some col => reflected txv column col :: reflections txv h rest
      | None => reflections txv h rest
      end
  end.

Definition plain_transaction (tx : string) : Column.t :=
  Column.mk tx tx BigInteger true false AutoAuto None None None.

Definition transaction_col (tx : string) : Column.t :=
  Column.mk tx tx BigInteger false true AutoFalse None None (Some true).

Definition end_transaction_col (en : string) : Column.t :=
  Column.mk en en BigInteger true false AutoAuto None None (Some true).

Definition operation_type_col (op : string) : Column.t :=
  Column.mk op op SmallInteger false false AutoAuto None None (Some true).

(** The columns [reflected_columns] allocates. *)
Definition reflected_part (tx : string) (h : list Column.t)
    : list Column.t :=
  let copies := reflections (VStr tx) h (kept h) in
  if existsb (String.eqb tx) (map Column.key copies)
  then copies
  else copies ++ [plain_transaction tx].

(** The columns [columns] appends after the reflected part. *)
Definition appended_part (tx en op : string) (strategy : Value)
    : list Column.t :=
  transaction_col tx
    :: (if value_eqb strategy (VStr "validity")
        then [end_transaction_col en] else [])
    ++ [operation_type_col op].

End ClosedForms.

(** The number of columns with a given key. *)
Definition count_key (k : string) (cols : list Column.t) : nat :=
  length (List.filter (fun col => String.eqb (Column.key col) k) cols).

(** The columns a list of locations denotes in a heap. *)
Definition deref (h : list Column.t) (ls : list loc) : list Column.t :=
  omap (fun l => h !! l) ls.

(** ** The invoice table of the scenarios *)

Module Example.

Definition id_column : Column.t :=
  Column.mk "id" "id" Integer false true AutoAuto None None None.

Definition amount_column : Column.t :=
  Column.mk "amount" "amount" (OtherType "Numeric") false false AutoAuto
            (Some true) None None.

Definition created_at_column : Column.t :=
  Column.mk "created_at" "created_at" (OtherType "DateTime") true false
            AutoAuto None (Some "now") None.

(** The three columns of [invoice] sit at locations 0, 1 and 2. *)
Definition invoice_heap : list Column.t :=
  [id_column; amount_column; created_at_column].

Definition invoice : Table.t := Table.mk "invoice" 0 [0; 1; 2].

Definition Invoice : Model :=
  mkModel [("id", 0); ("amount", 1); ("created_at", 2)].

Definition defaults (strategy : string) : gmap string Value :=
  list_to_map
    [("table_name", VStr "%s_version");
     ("transaction_column_name", VStr "transaction_id");
     ("end_transaction_column_name", VStr "end_transaction_id");
     ("operation_type_column_name", VStr "operation_type");
     ("strategy", VStr strategy);
     ("exclude", VList ["created_at"])].

(** The model-scoped lookup: an entity that is not versioned is a
    [TypeError]; a versioned one reads the same values here. *)
Definition model_option (strategy : string) (model : Datatypes.option Model)
    (name : string) : PyResult Value :=
  match model with
  | None => Raise TypeError
  | Some _ =>
      match defaults strategy !! name with
      | Some v => Return v
      | None => Raise KeyError
      end
  end.

Definition excluded_by_name (_ : Model) (_ : loc) (col : Column.t) : bool :=
  existsb (String.eqb (Column.name col)) ["created_at"].

Definition manager (strategy : string) : Manager.t :=
  Manager.mk (model_option strategy) (defaults strategy) excluded_by_name.

Definition builder (strategy : string) : TableBuilder.t :=
  TableBuilder.mk (manager strategy) invoice (Some Invoice).

(** A membership test that finds no column in any list. *)
Definition never_in (_ : loc) (_ : Column.t) (_ : list string) : bool :=
  false.

(** A formatter that refuses the conversions left to it. *)
Definition no_format (_ : ascii) (_ : string) (_ : Datatypes.option string)
    : PyResult string :=
  Raise ValueError.

(** A plugin hook that leaves the column list as it is. *)
Definition no_plugin (_ : TableBuilder.t) (columns : list loc)
    : M (list loc) :=
  ret columns.

Definition start : State := mkState invoice_heap ∅.

(** A table that already carries a column named like the transaction
    column, which is not part of its primary key. *)
Definition ledger_heap : list Column.t :=
  [id_column;
   Column.mk "transaction_id" "transaction_id" BigInteger false false
             AutoAuto None None None].

Definition ledger : Table.t := Table.mk "ledger" 0 [0; 1].

(** Built for the raw table, without a mapped entity. *)
Definition ledger_builder : TableBuilder.t :=
  TableBuilder.mk (manager "flat") ledger None.

(** A manager whose default options are empty. *)
Definition bare_manager : Manager.t :=
  Manager.mk (model_option "flat") ∅ excluded_by_name.

Definition bare_builder : TableBuilder.t :=
  TableBuilder.mk bare_manager invoice None.

(** The version table of [invoice] under the validity strategy, and the
    state a first build leaves: six new columns on the heap and the table
    registered in catalog 0. *)
Definition invoice_version : Table.t :=
  Table.mk "invoice_version" 0 [3; 4; 5; 6; 7; 8].

Definition built : State :=
  snd (TableBuilder.__call__ never_in no_plugin no_format (builder "validity") None
         start).

(** A parent table with a column of its own named like the
    end-transaction column. *)
Definition period_heap : list Column.t :=
  [id_column;
   Column.mk "end_transaction_id" "end_transaction_id" BigInteger true false
             AutoAuto None None None].

Definition period : Table.t := Table.mk "period" 0 [0; 1].

Definition period_builder : TableBuilder.t :=
  TableBuilder.mk (manager "flat") period None.

End Example.

(** ** Frames *)

(** [st'] keeps what [st] had: the same catalog, and every column that was
    on the heap of [st] unchanged at its location. *)
Definition preserves (st st' : State) : Prop :=
  catalog st' = catalog st /\
  forall l, l < length (heap st) -> heap st' !! l = heap st !! l.

(** A computation that, whatever its outcome, keeps what the state had. *)
Definition frames {A} (m : M A) : Prop :=
  forall st, preserves st (snd (m st)).

(** ** Further builders *)

Module Cases.

(** The default options without [exclude]. *)
Definition no_exclude_manager : Manager.t :=
  Manager.mk (Example.model_option "flat")
             (delete "exclude" (Example.defaults "flat"))
             Example.excluded_by_name.

(** A builder for the raw invoice table whose options lack [exclude]. *)
Definition no_exclude_builder : TableBuilder.t :=
  TableBuilder.mk no_exclude_manager Example.invoice None.

(** The same manager on a table without columns. *)
Definition empty_table : Table.t := Table.mk "empty" 0 [].

Definition empty_builder : TableBuilder.t :=
  TableBuilder.mk no_exclude_manager empty_table None.

(** A table-name template without a substitution slot. *)
Definition fixed_name_manager : Manager.t :=
  Manager.mk (Example.model_option "flat")
             (<["table_name" := VStr "versions"]> (Example.defaults "flat"))
             Example.excluded_by_name.

Definition fixed_name_builder : TableBuilder.t :=
  TableBuilder.mk fixed_name_manager Example.invoice None.

(** A mapped entity with two attributes on the same column. *)
Definition Aliased : Model :=
  mkModel [("id", 0); ("amount", 1); ("total", 1); ("created_at", 2)].

Definition aliased_builder : TableBuilder.t :=
  TableBuilder.mk (Example.manager "flat") Example.invoice (Some Aliased).


(** The [exclude] option given as one name instead of a list. *)
Definition string_exclude_builder : TableBuilder.t :=
  TableBuilder.mk
    (Manager.mk (Example.model_option "flat")
                (<["exclude" := VStr "created_at"]> (Example.defaults "flat"))
                Example.excluded_by_name)
    Example.invoice None.

(** The default options without [strategy]. *)
Definition no_strategy_builder : TableBuilder.t :=
  TableBuilder.mk
    (Manager.mk (Example.model_option "flat")
                (delete "strategy" (Example.defaults "flat"))
                Example.excluded_by_name)
    Example.invoice None.

End Cases.

(** ** Running computations *)

Lemma bind_Return {A B} (m : M A) (k : A -> M B) st a st' :
  m st = (Return a, st') -> bind m k st = k a st'.
Proof. intros E. unfold bind. now rewrite E. Qed.

Lemma bind_Raise {A B} (m : M A) (k : A -> M B) st e st' :
  m st = (Raise e, st') -> bind m k st = (Raise e, st').
Proof. intros E. unfold bind. now rewrite E. Qed.

Lemma lookup_fresh (h : list Column.t) (col : Column.t) :
  (h ++ [col]) !! length h = Some col.
Proof. rewrite lookup_app_r by lia. now rewrite Nat.sub_diag. Qed.

Lemma lookup_old (h extra : list Column.t) (l : loc) :
  l < length h -> (h ++ extra) !! l = h !! l.
Proof. intros Hl. now apply lookup_app_l. Qed.

Lemma insert_fresh (h : list Column.t) (col col' : Column.t) :
  <[length h := col']> (h ++ [col]) = h ++ [col'].
Proof.
  rewrite insert_app_r_alt by lia. now rewrite Nat.sub_diag.
Qed.

Lemma getattr_fresh h cat col :
  getattr (length h) (mkState (h ++ [col]) cat)
  = (Return col, mkState (h ++ [col]) cat).
Proof. unfold getattr; simpl. now rewrite lookup_fresh. Qed.

Lemma setattr_fresh h cat col f :
  setattr (length h) f (mkState (h ++ [col]) cat)
  = (Return tt, mkState (h ++ [f col]) cat).
Proof.
  unfold setattr; simpl. rewrite lookup_fresh. now rewrite insert_fresh.
Qed.

Lemma Column_copy_run h cat column col :
  h !! column = Some col ->
  Column_copy column (mkState h cat)
  = (Return (length h), mkState (h ++ [col]) cat).
Proof.
  intros Hc. unfold Column_copy, bind, getattr, alloc; simpl. now rewrite Hc.
Qed.

Lemma set_key_same col : Column.set_key (Column.key col) col = col.
Proof. now destruct col. Qed.

Lemma assign_keys_run items column h cat col :
  TableBuilder.assign_keys items column (length h) (mkState (h ++ [col]) cat)
  = (Return tt,
     mkState (h ++ [Column.set_key (mapped_key items column (Column.key col))
                                   col]) cat).
Proof.
  revert col. induction items as [|[key value] rest IH]; intros col; simpl.
  - unfold ret, mapped_key; simpl. now rewrite set_key_same.
  - unfold mapped_key; simpl. destruct (Nat.eqb value column).
    + erewrite bind_Return by apply setattr_fresh.
      rewrite IH. now destruct col.
    + erewrite bind_Return by reflexivity. apply IH.
Qed.

Lemma when_setattr_fresh (b : bool) f h cat col :
  (if b then setattr (length h) f else ret tt) (mkState (h ++ [col]) cat)
  = (Return tt, mkState (h ++ [if b then f col else col]) cat).
Proof. destruct b; [apply setattr_fresh | reflexivity]. Qed.

Section ReflectColumn.

Variable self : TableBuilder.t.

Lemma assign_model_keys_run column h cat col :
  match TableBuilder.model self with
  | Some m => TableBuilder.assign_keys (mapper_columns m) column (length h)
  | None => ret tt
  end (mkState (h ++ [col]) cat)
  = (Return tt,
     mkState (h ++ [Column.set_key (reflected_key self column col) col]) cat).
Proof.
  unfold reflected_key. destruct (TableBuilder.model self) as [m|].
  - apply assign_keys_run.
  - unfold ret. now rewrite set_key_same.
Qed.

(** [reflect_column] on a live column: it allocates one new column, the
    copy, and touches nothing else. *)
Lemma reflect_column_run h cat column col txv :
  h !! column = Some col ->
  TableBuilder.option self "transaction_column_name" = Return txv ->
  TableBuilder.reflect_column self column (mkState h cat)
  = (Return (length h), mkState (h ++ [reflected self txv column col]) cat).
Proof.
  intros Hc Htx. unfold TableBuilder.reflect_column.
  erewrite bind_Return by (apply Column_copy_run; eassumption).
  erewrite bind_Return by apply setattr_fresh.
  erewrite bind_Return by apply setattr_fresh.
  erewrite bind_Return by apply getattr_fresh.
  erewrite bind_Return by apply when_setattr_fresh.
  erewrite bind_Return by apply getattr_fresh.
  erewrite bind_Return by (unfold lift; rewrite Htx; reflexivity).
  erewrite bind_Return by apply when_setattr_fresh.
  erewrite bind_Return by apply getattr_fresh.
  erewrite bind_Return by apply when_setattr_fresh.
  erewrite bind_Return by apply assign_model_keys_run.
  unfold ret. do 3 f_equal.
  unfold reflected, reflected_key.
  remember (TableBuilder.model self) as md.
  destruct col as [n k ty nu pk ai un ou ix].
  destruct ai; cbn -[value_eqb mapped_key];
    remember (value_eqb (VStr n) txv) as b;
    destruct b, pk, md; reflexivity.
Qed.

End ReflectColumn.

Section Assembly.

Variable column_in : loc -> Column.t -> list string -> bool.
Variable self : TableBuilder.t.

Lemma parent_columns_step_run h0 extra cat column :
  exclude_available self ->
  column < length h0 ->
  TableBuilder.parent_columns_step column_in self column
    (mkState (h0 ++ extra) cat)
  = (Return (if excluded column_in self h0 column then None else Some column),
     mkState (h0 ++ extra) cat).
Proof.
  intros Hex Hlive. unfold TableBuilder.parent_columns_step, excluded.
  destruct (lookup_lt_is_Some_2 h0 column Hlive) as [col Hcol].
  assert (Hcol' : (h0 ++ extra) !! column = Some col)
    by (rewrite lookup_old; assumption).
  rewrite Hcol. unfold exclude_available in Hex.
  destruct (TableBuilder.model self) as [m|].
  - unfold bind at 1. unfold bind at 1. unfold getattr at 1; simpl.
    rewrite Hcol'. unfold ret at 1.
    destruct (Manager.is_excluded_column _ m column col); reflexivity.
  - destruct (Hex eq_refl) as [names Hx]. rewrite Hx.
    unfold bind at 1. unfold ret at 1. unfold bind at 1. unfold bind at 1.
    unfold getattr at 1; simpl. rewrite Hcol'.
    unfold lift, TableBuilder.contains.
    destruct (column_in column col names); reflexivity.
Qed.

Lemma reflections_length txv h sources :
  Forall (fun l => l < length h) sources ->
  length (reflections self txv h sources) = length sources.
Proof.
  induction 1 as [|l rest Hl _ IH]; simpl; [reflexivity|].
  destruct (lookup_lt_is_Some_2 h l Hl) as [col ->]. simpl. now rewrite IH.
Qed.

Lemma for_append_run txv h0 cat sources :
  exclude_available self ->
  TableBuilder.option self "transaction_column_name" = Return txv ->
  Forall (fun l => l < length h0) sources ->
  forall acc extra,
    TableBuilder.for_append
      (map (TableBuilder.parent_columns_step column_in self) sources)
      (TableBuilder.reflect_column self) acc (mkState (h0 ++ extra) cat)
    = let copies :=
        reflections self txv h0
          (List.filter (fun l => negb (excluded column_in self h0 l)) sources)
      in
      (Return (acc ++ seq (length (h0 ++ extra)) (length copies)),
       mkState (h0 ++ extra ++ copies) cat).
Proof.
  intros Hex Htx. induction 1 as [|l rest Hl Hrest IH]; intros acc extra.
  - simpl. unfold ret. now rewrite !app_nil_r.
  - cbn [map TableBuilder.for_append List.filter].
    erewrite bind_Return by (apply parent_columns_step_run; assumption).
    destruct (excluded column_in self h0 l) eqn:Ex; cbn [negb].
    + apply IH.
    + destruct (lookup_lt_is_Some_2 h0 l Hl) as [col Hcol].
      erewrite bind_Return
        by (apply reflect_column_run with (col := col);
            [rewrite lookup_old; assumption | exact Htx]).
      rewrite <- (app_assoc h0 extra), IH.
      cbn [reflections]. rewrite Hcol. cbn zeta. f_equal.
      * rewrite <- app_assoc. f_equal. cbn [length seq app].
        rewrite !length_app. cbn [length].
        now rewrite Nat.add_assoc, Nat.add_1_r.
      * now rewrite <- !app_assoc.
Qed.

Lemma keys_of_run cat cols :
  forall h,
    TableBuilder.keys_of (seq (length h) (length cols))
      (mkState (h ++ cols) cat)
    = (Return (map Column.key cols), mkState (h ++ cols) cat).
Proof.
  induction cols as [|col rest IH]; intros h; [reflexivity|].
  cbn [length seq TableBuilder.keys_of map].
  assert (Hget : getattr (length h) (mkState (h ++ col :: rest) cat)
                 = (Return col, mkState (h ++ col :: rest) cat)).
  { unfold getattr; simpl. rewrite lookup_app_r by lia.
    now rewrite Nat.sub_diag. }
  erewrite bind_Return by exact Hget.
  specialize (IH (h ++ [col])).
  rewrite length_app, Nat.add_1_r, <- app_assoc in IH. simpl in IH.
  erewrite bind_Return by exact IH. reflexivity.
Qed.

Lemma seq_snoc_fresh (h cols : list Column.t) (col : Column.t) :
  seq (length h) (length cols) ++ [length (h ++ cols)]
  = seq (length h) (length (cols ++ [col])).
Proof.
  rewrite !length_app. cbn [length]. rewrite Nat.add_1_r, seq_S.
  reflexivity.
Qed.

Section Configured.

Variables (tx en op : string) (strategy : Value).
Hypothesis Hexclude : exclude_available self.
Hypothesis Htx :
  TableBuilder.option self "transaction_column_name" = Return (VStr tx).

Lemma reflected_columns_run h cat :
  Forall (fun l => l < length h)
         (Table.c (TableBuilder.parent_table self)) ->
  TableBuilder.reflected_columns column_in self (mkState h cat)
  = (Return (seq (length h)
                 (length (reflected_part column_in self tx h))),
     mkState (h ++ reflected_part column_in self tx h) cat).
Proof.
  intros Hlive. unfold TableBuilder.reflected_columns.
  erewrite bind_Return by (unfold lift; rewrite Htx; reflexivity).
  unfold TableBuilder.parent_columns.
  pose proof (for_append_run (VStr tx) h cat _ Hexclude Htx Hlive [] [])
    as Hloop.
  rewrite !app_nil_r in Hloop. cbn zeta in Hloop.
  erewrite bind_Return by exact Hloop. cbn [app].
  erewrite bind_Return by apply keys_of_run.
  unfold reflected_part, kept, py_in. cbn zeta.
  set (copies := reflections self (VStr tx) h _).
  cbn [value_eqb].
  destruct (existsb (fun k => String.eqb tx k) (map Column.key copies))
    eqn:Ein.
  - replace (existsb (String.eqb tx) (map Column.key copies)) with true.
    reflexivity.
  - replace (existsb (String.eqb tx) (map Column.key copies)) with false.
    cbn [negb]. unfold sa_Column, alloc, bind, ret; simpl.
    rewrite <- app_assoc.
    now rewrite (seq_snoc_fresh h copies (plain_transaction tx)).
Qed.

Hypothesis Hop :
  TableBuilder.option self "operation_type_column_name" = Return (VStr op).
Hypothesis Hstrategy :
  TableBuilder.option self "strategy" = Return strategy.
Hypothesis Hend :
  value_eqb strategy (VStr "validity") = true ->
  TableBuilder.option self "end_transaction_column_name"
  = Return (VStr en).

Lemma transaction_column_run h cat :
  TableBuilder.transaction_column self (mkState h cat)
  = (Return (length h), mkState (h ++ [transaction_col tx]) cat).
Proof.
  unfold TableBuilder.transaction_column.
  erewrite bind_Return by (unfold lift; rewrite Htx; reflexivity).
  reflexivity.
Qed.

Lemma operation_type_column_run h cat :
  TableBuilder.operation_type_column self (mkState h cat)
  = (Return (length h), mkState (h ++ [operation_type_col op]) cat).
Proof.
  unfold TableBuilder.operation_type_column.
  erewrite bind_Return by (unfold lift; rewrite Hop; reflexivity).
  reflexivity.
Qed.

Lemma end_transaction_column_run h cat :
  value_eqb strategy (VStr "validity") = true ->
  TableBuilder.end_transaction_column self (mkState h cat)
  = (Return (length h), mkState (h ++ [end_transaction_col en]) cat).
Proof.
  intros Hv. unfold TableBuilder.end_transaction_column.
  erewrite bind_Return by (unfold lift; rewrite (Hend Hv); reflexivity).
  reflexivity.
Qed.

(** A successful [columns] allocates the reflected part and then the
    appended part, and returns their locations in that order. *)
Lemma columns_run h cat :
  Forall (fun l => l < length h)
         (Table.c (TableBuilder.parent_table self)) ->
  let all :=
    reflected_part column_in self tx h
      ++ appended_part tx en op strategy in
  TableBuilder.columns column_in self (mkState h cat)
  = (Return (seq (length h) (length all)), mkState (h ++ all) cat).
Proof.
  intros Hlive all. subst all. unfold TableBuilder.columns.
  erewrite bind_Return by (apply reflected_columns_run; assumption).
  set (R := reflected_part column_in self tx h).
  erewrite bind_Return by apply transaction_column_run.
  rewrite (seq_snoc_fresh h R (transaction_col tx)),
          <- (app_assoc h R [transaction_col tx]).
  set (RT := R ++ [transaction_col tx]).
  erewrite bind_Return by (unfold lift; rewrite Hstrategy; reflexivity).
  unfold appended_part.
  pose proof end_transaction_column_run as Hrun.
  destruct (value_eqb strategy (VStr "validity")).
  - erewrite bind_Return
      by (erewrite bind_Return by (apply Hrun; reflexivity);
          reflexivity).
    rewrite (seq_snoc_fresh h RT (end_transaction_col en)),
            <- (app_assoc h RT [end_transaction_col en]).
    set (RTE := RT ++ [end_transaction_col en]).
    erewrite bind_Return by apply operation_type_column_run.
    unfold ret.
    rewrite (seq_snoc_fresh h RTE (operation_type_col op)),
            <- (app_assoc h RTE [operation_type_col op]).
    subst RTE RT. rewrite <- !app_assoc. reflexivity.
  - erewrite bind_Return by reflexivity.
    erewrite bind_Return by apply operation_type_column_run.
    unfold ret.
    rewrite (seq_snoc_fresh h RT (operation_type_col op)),
            <- (app_assoc h RT [operation_type_col op]).
    subst RT. rewrite <- !app_assoc. reflexivity.
Qed.

End Configured.

End Assembly.


(** ** Column reflection *)

Section Reflection.

Variable self : TableBuilder.t.

(** The nullable flag of a reflected column, case by case. *)
Lemma reflected_nullable txv column col :
  Column.nullable (reflected self txv column col)
  = if Column.primary_key col
    then (if value_eqb (VStr (Column.name col)) txv
          then false else Column.nullable col)
    else true.
Proof. reflexivity. Qed.

(** Whatever its outcome, [reflect_column] leaves every column that was on
    the heap, and the catalog, as they were. *)
Lemma reflect_column_frame h cat column :
  forall r st',
    TableBuilder.reflect_column self column (mkState h cat) = (r, st') ->
    catalog st' = cat /\
    forall l, l < length h -> heap st' !! l = h !! l.
Proof.
  intros r st' Hrun. unfold TableBuilder.reflect_column in Hrun.
  destruct (h !! column) as [col|] eqn:Hc.
  - erewrite bind_Return in Hrun by (apply Column_copy_run; eassumption).
    erewrite bind_Return in Hrun by apply setattr_fresh.
    erewrite bind_Return in Hrun by apply setattr_fresh.
    erewrite bind_Return in Hrun by apply getattr_fresh.
    erewrite bind_Return in Hrun by apply when_setattr_fresh.
    erewrite bind_Return in Hrun by apply getattr_fresh.
    destruct (TableBuilder.option self "transaction_column_name")
      as [txv|e] eqn:Htx.
    + erewrite bind_Return in Hrun by (unfold lift; reflexivity).
      erewrite bind_Return in Hrun by apply when_setattr_fresh.
      erewrite bind_Return in Hrun by apply getattr_fresh.
      erewrite bind_Return in Hrun by apply when_setattr_fresh.
      erewrite bind_Return in Hrun by apply assign_model_keys_run.
      unfold ret in Hrun. inversion Hrun; subst; simpl.
      split; [reflexivity|]. intros l Hl. now apply lookup_old.
    + erewrite bind_Raise in Hrun by (unfold lift; reflexivity).
      inversion Hrun; subst; simpl.
      split; [reflexivity|]. intros l Hl. now apply lookup_old.
  - unfold Column_copy, bind, getattr in Hrun; simpl in Hrun.
    rewrite Hc in Hrun. inversion Hrun; subst; simpl. now split.
Qed.

(** C9. [reflect_column] returns a copy of the source in a new column
    object.  The location of the copy was not in use before and differs
    from the source.  The copy has the name, the type, the primary-key flag
    and the index flag of the source; its key is the source's, or the
    attribute key of the mapped entity; its nullable flag is the one lines
    84-88 compute; [unique] is [False], [onupdate] is [None] and
    [autoincrement] is [False].  The source column, every other column
    that existed before and the catalog are left as they were. *)
Theorem reflect_column_independent_copy h cat column col txv :
  h !! column = Some col ->
  TableBuilder.option self "transaction_column_name" = Return txv ->
  exists column_copy copy st',
    TableBuilder.reflect_column self column (mkState h cat)
    = (Return column_copy, st') /\
    h !! column_copy = None /\
    column_copy <> column /\
    heap st' !! column_copy = Some copy /\
    Column.name copy = Column.name col /\
    Column.type_ copy = Column.type_ col /\
    Column.primary_key copy = Column.primary_key col /\
    Column.index copy = Column.index col /\
    Column.key copy = reflected_key self column col /\
    Column.nullable copy
    = (if Column.primary_key col
       then (if value_eqb (VStr (Column.name col)) txv
             then false else Column.nullable col)
       else true) /\
    Column.unique copy = Some false /\
    Column.onupdate copy = None /\
    Column.autoincrement copy = AutoFalse /\
    heap st' !! column = Some col /\
    (forall l, l < length h -> heap st' !! l = h !! l) /\
    length (heap st') = S (length h) /\
    catalog st' = cat.
Proof.
  intros Hc Htx.
  exists (length h), (reflected self txv column col),
         (mkState (h ++ [reflected self txv column col]) cat).
  pose proof (lookup_lt_Some _ _ _ Hc) as Hlt.
  repeat split; simpl.
  - now apply reflect_column_run.
  - apply lookup_ge_None_2. lia.
  - lia.
  - apply lookup_fresh.
  - rewrite lookup_old by assumption. exact Hc.
  - intros l Hl. now apply lookup_old.
  - rewrite length_app. simpl. lia.
Qed.

End Reflection.

(** The copy of the [amount] column of the invoice table. *)
Lemma reflect_column_independent_copy_witness :
  exists column_copy copy st',
    TableBuilder.reflect_column (Example.builder "flat") 1 Example.start
    = (Return column_copy, st') /\
    Example.invoice_heap !! column_copy = None /\
    column_copy <> 1 /\
    heap st' !! column_copy = Some copy /\
    Column.name copy = "amount" /\
    Column.type_ copy = OtherType "Numeric" /\
    Column.primary_key copy = false /\
    Column.index copy = None /\
    Column.key copy = "amount" /\
    Column.nullable copy = true /\
    Column.unique copy = Some false /\
    Column.onupdate copy = None /\
    Column.autoincrement copy = AutoFalse /\
    heap st' !! 1 = Some Example.amount_column /\
    (forall l, l < length Example.invoice_heap ->
               heap st' !! l = Example.invoice_heap !! l) /\
    length (heap st') = S (length Example.invoice_heap) /\
    catalog st' = ∅.
Proof.
  apply (reflect_column_independent_copy (Example.builder "flat")
           Example.invoice_heap ∅ 1 Example.amount_column
           (VStr "transaction_id")).
  - reflexivity.
  - vm_compute. reflexivity.
Defined.

(** C2. A parent column named like the transaction column that is not a
    primary key comes out of [reflect_column] nullable: the assignment
    [nullable = False] is overwritten by the one for columns outside the
    primary key. *)
Theorem reflect_column_transaction_name_nullable :
  Example.ledger_heap !! 1
  = Some (Column.mk "transaction_id" "transaction_id" BigInteger false false
                    AutoAuto None None None) /\
  TableBuilder.option Example.ledger_builder "transaction_column_name"
  = Return (VStr "transaction_id") /\
  exists copy,
    TableBuilder.reflect_column Example.ledger_builder 1
      (mkState Example.ledger_heap ∅)
    = (Return 2, mkState (Example.ledger_heap ++ [copy]) ∅) /\
    Column.name copy = "transaction_id" /\
    Column.primary_key copy = false /\
    Column.nullable copy = true.
Proof.
  split; [reflexivity|]. split; [vm_compute; reflexivity|].
  eexists. split.
  - eapply reflect_column_run with (txv := VStr "transaction_id").
    + reflexivity.
    + vm_compute. reflexivity.
  - repeat split.
Qed.

(** ** The option lookup *)

(** C3, as stated, fails: the fallback is taken on the [TypeError] of the
    model-scoped lookup, and a name that the default options lack is a
    raised [KeyError], not a value. *)
Lemma option_missing_raises :
  Manager.option Example.bare_manager None "strategy" = Raise TypeError /\
  TableBuilder.option Example.bare_builder "strategy" = Raise KeyError /\
  ~ (exists v, TableBuilder.option Example.bare_builder "strategy" = Return v).
Proof.
  split; [reflexivity|]. split; [reflexivity|].
  intros [v Hv]. discriminate Hv.
Qed.

(** C3, amended. [option] passes on what the model-scoped lookup returns;
    when that lookup raises [TypeError] it reads the default options, where
    a missing name raises [KeyError]; any other exception of the
    model-scoped lookup goes to the caller with no fallback. *)
Theorem option_two_tier (self : TableBuilder.t) (name : string) :
  (forall v,
      Manager.option (TableBuilder.manager self) (TableBuilder.model self) name
      = Return v ->
      TableBuilder.option self name = Return v) /\
  (Manager.option (TableBuilder.manager self) (TableBuilder.model self) name
   = Raise TypeError ->
   TableBuilder.option self name
   = match Manager.options (TableBuilder.manager self) !! name with
     | Some v => Return v
     | None => Raise KeyError
     end) /\
  (forall e,
      e <> TypeError ->
      Manager.option (TableBuilder.manager self) (TableBuilder.model self) name
      = Raise e ->
      TableBuilder.option self name = Raise e).
Proof.
  unfold TableBuilder.option. repeat split.
  - intros v ->. reflexivity.
  - intros ->. reflexivity.
  - intros e Hne ->. destruct e; try reflexivity. now destruct Hne.
Qed.

(** Without a mapped entity the ledger builder reads [strategy] from the
    default options. *)
Lemma option_two_tier_witness :
  TableBuilder.option Example.ledger_builder "strategy" = Return (VStr "flat").
Proof.
  exact (proj1 (proj2 (option_two_tier Example.ledger_builder "strategy"))
               eq_refl).
Defined.

(** ** The base column list *)

Lemma deref_fresh (cols : list Column.t) :
  forall h, deref (h ++ cols) (seq (length h) (length cols)) = cols.
Proof.
  unfold deref. induction cols as [|col rest IH]; intros h; [reflexivity|].
  specialize (IH (h ++ [col])).
  rewrite length_app, Nat.add_1_r, <- app_assoc in IH.
  cbn [length seq]. change (omap ?f (?x :: ?l))
    with (match f x with Some y => y :: omap f l | None => omap f l end).
  cbv beta. rewrite lookup_app_r by lia. rewrite Nat.sub_diag. cbn [lookup list_lookup].
  f_equal. exact IH.
Qed.

Lemma seq_fresh (h : list Column.t) n :
  Forall (fun l => length h <= l) (seq (length h) n).
Proof. apply Forall_forall. intros l Hl. apply elem_of_seq in Hl. lia. Qed.

Lemma value_eqb_eq v w : value_eqb v w = true <-> v = w.
Proof.
  destruct v as [s|l|], w as [t|m|]; simpl; split; intros H;
    try discriminate; try reflexivity.
  - apply String.eqb_eq in H. now subst.
  - inversion H. apply String.eqb_refl.
  - apply bool_decide_eq_true in H. now subst.
  - inversion H. now apply bool_decide_eq_true.
Qed.

(** In extend mode the base column list is empty and nothing is read or
    allocated. *)
Lemma base_columns_extend column_in self existing st :
  TableBuilder.base_columns column_in self (Some existing) st = (Return [], st).
Proof. reflexivity. Qed.



Section BaseColumns.

Variable column_in : loc -> Column.t -> list string -> bool.
Variable self : TableBuilder.t.
Variables (tx en op : string) (strategy : Value).
Variables (h : list Column.t) (cat : gmap (nat * string) Table.t).

Hypothesis Hexclude : exclude_available self.
Hypothesis Htx :
  TableBuilder.option self "transaction_column_name" = Return (VStr tx).
Hypothesis Hop :
  TableBuilder.option self "operation_type_column_name" = Return (VStr op).
Hypothesis Hstrategy : TableBuilder.option self "strategy" = Return strategy.
Hypothesis Hend :
  value_eqb strategy (VStr "validity") = true ->
  TableBuilder.option self "end_transaction_column_name" = Return (VStr en).
Hypothesis Hlive :
  Forall (fun l => l < length h) (Table.c (TableBuilder.parent_table self)).

(** A normal-mode run: the reflected columns, then the appended ones. *)
Lemma base_columns_normal :
  exists locs R,
    TableBuilder.reflected_columns column_in self (mkState h cat)
    = (Return (seq (length h) (length R)), mkState (h ++ R) cat) /\
    TableBuilder.base_columns column_in self None (mkState h cat)
    = (Return locs, mkState (h ++ R ++ appended_part tx en op strategy) cat) /\
    deref (h ++ R ++ appended_part tx en op strategy) locs
    = R ++ appended_part tx en op strategy.
Proof.
  exists (seq (length h)
              (length (reflected_part column_in self tx h
                         ++ appended_part tx en op strategy))),
         (reflected_part column_in self tx h).
  split; [now apply reflected_columns_run|]. split.
  - unfold TableBuilder.base_columns.
    rewrite (columns_run column_in self tx en op strategy) by assumption.
    reflexivity.
  - apply deref_fresh.
Qed.


(** C5, amended. In normal mode [columns] appends, after the reflected
    columns, the transaction column, the end-transaction column and the
    operation-type column when the strategy is ['validity'], and the
    transaction column and the operation-type column otherwise; no test on
    the reflected keys is made.  So the end-transaction column is appended
    if and only if the strategy is ['validity'], and a column keyed by the
    end-transaction name is on the list if and only if the strategy is
    ['validity'] whenever no reflected column, and neither of the other two
    names, has that key.  The appended end-transaction column is keyed by
    the end-transaction name, big-integer typed, nullable and indexed. *)
Theorem base_columns_end_transaction_column :
  exists locs R appended,
    TableBuilder.reflected_columns column_in self (mkState h cat)
    = (Return (seq (length h) (length R)), mkState (h ++ R) cat) /\
    TableBuilder.base_columns column_in self None (mkState h cat)
    = (Return locs, mkState (h ++ R ++ appended) cat) /\
    deref (h ++ R ++ appended) locs = R ++ appended /\
    appended
    = (if value_eqb strategy (VStr "validity")
       then [transaction_col tx; end_transaction_col en;
             operation_type_col op]
       else [transaction_col tx; operation_type_col op]) /\
    (In (end_transaction_col en) appended <-> strategy = VStr "validity") /\
    ((forall r, In r R -> Column.key r <> en) ->
     tx <> en -> op <> en ->
     ((exists col, In col (R ++ appended) /\ Column.key col = en)
      <-> strategy = VStr "validity")) /\
    Column.key (end_transaction_col en) = en /\
    Column.type_ (end_transaction_col en) = BigInteger /\
    is_integer_type (Column.type_ (end_transaction_col en)) = true /\
    Column.nullable (end_transaction_col en) = true /\
    Column.index (end_transaction_col en) = Some true.
Proof.
  destruct base_columns_normal as (locs & R & HR & Hrun & Hderef).
  exists locs, R, (appended_part tx en op strategy).
  split; [exact HR|]. split; [exact Hrun|]. split; [exact Hderef|].
  unfold appended_part. rewrite <- value_eqb_eq.
  destruct (value_eqb strategy (VStr "validity")); cbn [app].
  - split; [reflexivity|]. split; [|split; [|repeat split]].
    + split; [reflexivity|]. intros _. simpl. auto.
    + intros _ _ _. split; [reflexivity|]. intros _.
      exists (end_transaction_col en). split; [|reflexivity].
      apply in_or_app. right. simpl. auto.
  - split; [reflexivity|]. split; [|split; [|repeat split]].
    + split; [|discriminate]. simpl. intros [H|[H|[]]]; discriminate H.
    + intros HR' Htxen Hopen. split; [|discriminate].
      intros (col & Hin & Hkey). exfalso.
      apply in_app_or in Hin as [Hin|Hin].
      * now apply (HR' col).
      * simpl in Hin. destruct Hin as [<-|[<-|[]]]; simpl in Hkey;
          [now apply Htxen | now apply Hopen].
Qed.

(** C6. In normal mode the base column list contains the operation-type
    column, keyed by the operation-type name, small-integer typed, non-null
    and indexed; it is the last column of the list. *)
Theorem base_columns_operation_type_last :
  exists locs st',
    TableBuilder.base_columns column_in self None (mkState h cat)
    = (Return locs, st') /\
    last (deref (heap st') locs) = Some (operation_type_col op) /\
    In (operation_type_col op) (deref (heap st') locs) /\
    Column.key (operation_type_col op) = op /\
    Column.type_ (operation_type_col op) = SmallInteger /\
    Column.nullable (operation_type_col op) = false /\
    Column.index (operation_type_col op) = Some true.
Proof.
  destruct base_columns_normal as (locs & R & HR & Hrun & Hderef).
  eexists locs, _. split; [exact Hrun|]. cbn [heap]. rewrite Hderef.
  unfold appended_part.
  change (transaction_col tx :: ?l ++ [?x])
    with ((transaction_col tx :: l) ++ [x]).
  rewrite app_assoc. split; [apply last_snoc|].
  split; [|repeat split]. apply in_or_app. right. now left.
Qed.

End BaseColumns.

(** ** The scenarios on the invoice table *)

Lemma builder_has_model strategy : exclude_available (Example.builder strategy).
Proof. intros H. discriminate H. Qed.

Lemma invoice_columns_live :
  Forall (fun l => l < length Example.invoice_heap)
         (Table.c (TableBuilder.parent_table (Example.builder "validity"))).
Proof. repeat (constructor; [simpl; lia|]). constructor. Qed.

(** Scenario A: flat strategy, [created_at] excluded. *)
Example scenario_A :
  exists table st',
    TableBuilder.__call__ Example.never_in Example.no_plugin
    Example.no_format
      (Example.builder "flat") None Example.start
    = (Return table, st') /\
    Table.name table = "invoice_version" /\
    map Column.name (deref (heap st') (Table.c table))
    = ["id"; "amount"; "transaction_id"; "transaction_id"; "operation_type"] /\
    map Column.nullable (deref (heap st') (Table.c table))
    = [false; true; true; false; false].
Proof.
  do 2 eexists. split; [vm_compute; reflexivity|].
  repeat split.
Qed.

(** Scenario B: the validity strategy adds [end_transaction_id] right
    before [operation_type]; the run leaves the state [Example.built]. *)
Example scenario_B :
  TableBuilder.__call__ Example.never_in Example.no_plugin
    Example.no_format
    (Example.builder "validity") None Example.start
  = (Return Example.invoice_version, Example.built) /\
  map Column.name (deref (heap Example.built) (Table.c Example.invoice_version))
  = ["id"; "amount"; "transaction_id"; "transaction_id";
     "end_transaction_id"; "operation_type"] /\
  catalog Example.built !! (0, "invoice_version") = Some Example.invoice_version.
Proof. repeat split; vm_compute; reflexivity. Qed.


(** The end-transaction column of the invoice version table under the
    validity strategy. *)
Lemma base_columns_end_transaction_column_witness :
  exists locs st',
    TableBuilder.base_columns Example.never_in (Example.builder "validity")
      None Example.start
    = (Return locs, st') /\
    In (end_transaction_col "end_transaction_id") (deref (heap st') locs).
Proof.
  destruct (base_columns_end_transaction_column Example.never_in
              (Example.builder "validity") "transaction_id"
              "end_transaction_id" "operation_type" (VStr "validity")
              Example.invoice_heap ∅)
    as (locs & R & appended & _ & Hrun & Hderef & _ & Hin & _).
  - apply builder_has_model.
  - vm_compute. reflexivity.
  - vm_compute. reflexivity.
  - vm_compute. reflexivity.
  - intros _. vm_compute. reflexivity.
  - apply invoice_columns_live.
  - exists locs, (mkState (Example.invoice_heap ++ R ++ appended) ∅).
    split; [exact Hrun|]. cbn [heap]. rewrite Hderef.
    apply in_or_app. right. now apply Hin.
Defined.

(** C5, as stated, fails.  The period table has a column of its own keyed
    [end_transaction_id]; a normal-mode build under the flat strategy
    keeps its copy, so the list holds a column under that key although the
    strategy is not ['validity']. *)
Lemma base_columns_end_transaction_counterexample :
  TableBuilder.option Example.period_builder "strategy"
  = Return (VStr "flat") /\
  TableBuilder.option Example.period_builder "end_transaction_column_name"
  = Return (VStr "end_transaction_id") /\
  exists locs st',
    TableBuilder.base_columns Example.never_in Example.period_builder None
      (mkState Example.period_heap ∅)
    = (Return locs, st') /\
    map Column.key (deref (heap st') locs)
    = ["id"; "end_transaction_id"; "transaction_id"; "transaction_id";
       "operation_type"] /\
    count_key "end_transaction_id" (deref (heap st') locs) = 1.
Proof.
  split; [vm_compute; reflexivity|]. split; [vm_compute; reflexivity|].
  do 2 eexists. split; [vm_compute; reflexivity|].
  split; vm_compute; reflexivity.
Qed.

(** The invoice version table ends with [operation_type]. *)
Lemma base_columns_operation_type_last_witness :
  exists locs st',
    TableBuilder.base_columns Example.never_in (Example.builder "validity")
      None Example.start
    = (Return locs, st') /\
    last (deref (heap st') locs) = Some (operation_type_col "operation_type").
Proof.
  destruct (base_columns_operation_type_last Example.never_in
              (Example.builder "validity") "transaction_id"
              "end_transaction_id" "operation_type" (VStr "validity")
              Example.invoice_heap ∅)
    as (locs & st' & Hrun & Hlast & _).
  - apply builder_has_model.
  - vm_compute. reflexivity.
  - vm_compute. reflexivity.
  - vm_compute. reflexivity.
  - intros _. vm_compute. reflexivity.
  - apply invoice_columns_live.
  - exists locs, st'. now split.
Defined.

(** ** Order and exclusion of the reflected columns *)

Lemma filter_live (f : loc -> bool) (h : list Column.t) (sources : list loc) :
  Forall (fun l => l < length h) sources ->
  Forall (fun l => l < length h) (List.filter f sources).
Proof.
  induction 1 as [|l rest Hl _ IH]; simpl; [constructor|].
  destruct (f l); [constructor|]; assumption.
Qed.

Lemma reflections_Forall2 self txv (h : list Column.t) (sources : list loc) :
  Forall (fun l => l < length h) sources ->
  Forall2 (fun column copy =>
             exists col, h !! column = Some col /\
                         copy = reflected self txv column col)
          sources (reflections self txv h sources).
Proof.
  induction 1 as [|l rest Hl _ IH]; simpl; [constructor|].
  destruct (lookup_lt_is_Some_2 h l Hl) as [col Hcol]. rewrite Hcol.
  constructor; [exists col; now split | exact IH].
Qed.

Lemma Forall2_and_l {A B} (R : A -> B -> Prop) (P : A -> Prop) l k :
  Forall2 R l k -> Forall P l -> Forall2 (fun a b => P a /\ R a b) l k.
Proof.
  induction 1 as [|a b l k Hab _ IH]; intros HP; [constructor|].
  inversion HP; subst. constructor; [now split | now apply IH].
Qed.

Lemma filter_sources (f : loc -> bool) (sources : list loc) :
  Forall (fun column => In column sources /\ f column = true)
         (List.filter f sources).
Proof.
  apply Forall_forall. intros column Hin. apply list_elem_of_In in Hin.
  now apply filter_In in Hin.
Qed.

Section ReflectedOrder.

Variable column_in : loc -> Column.t -> list string -> bool.
Variable self : TableBuilder.t.
Variables (tx en op : string) (strategy : Value).
Variables (h : list Column.t) (cat : gmap (nat * string) Table.t).

Hypothesis Hexclude : exclude_available self.
Hypothesis Htx :
  TableBuilder.option self "transaction_column_name" = Return (VStr tx).
Hypothesis Hop :
  TableBuilder.option self "operation_type_column_name" = Return (VStr op).
Hypothesis Hstrategy : TableBuilder.option self "strategy" = Return strategy.
Hypothesis Hend :
  value_eqb strategy (VStr "validity") = true ->
  TableBuilder.option self "end_transaction_column_name" = Return (VStr en).
Hypothesis Hlive :
  Forall (fun l => l < length h) (Table.c (TableBuilder.parent_table self)).

(** C7. A successful [columns] creates one copy for each parent column
    that passes the exclusion test, in the parent's order, and after the
    copies only columns built from the option names: the plain transaction
    column of [reflected_columns] when no copy has that key, then the
    transaction column, the end-transaction column under the validity
    strategy and the operation-type column.  It returns exactly these new
    objects, in this order, and creates no other.  So every column on the
    list that stems from the parent table is the copy of a column that is
    not excluded, and no excluded column is copied.  With a mapped entity
    the test is the manager's [is_excluded_column] on the entity and the
    column; without one it is the membership of the column in the list
    under [exclude]. *)
Theorem columns_reflect_kept_in_order :
  (exists copies added,
      TableBuilder.columns column_in self (mkState h cat)
      = (Return (seq (length h) (length (copies ++ added))),
         mkState (h ++ copies ++ added) cat) /\
      deref (h ++ copies ++ added) (seq (length h) (length (copies ++ added)))
      = copies ++ added /\
      Forall2 (fun column copy =>
                 (In column (Table.c (TableBuilder.parent_table self)) /\
                  negb (excluded column_in self h column) = true) /\
                 exists col, h !! column = Some col /\
                             copy = reflected self (VStr tx) column col)
              (List.filter (fun column => negb (excluded column_in self h column))
                           (Table.c (TableBuilder.parent_table self)))
              copies /\
      added
      = (if existsb (String.eqb tx) (map Column.key copies)
         then [] else [plain_transaction tx])
          ++ appended_part tx en op strategy /\
      Forall (fun l => length h <= l)
             (seq (length h) (length (copies ++ added)))) /\
  (forall column,
      excluded column_in self h column = true ->
      ~ In column
          (List.filter (fun column => negb (excluded column_in self h column))
                       (Table.c (TableBuilder.parent_table self)))) /\
  (forall m column col,
      TableBuilder.model self = Some m ->
      h !! column = Some col ->
      excluded column_in self h column
      = Manager.is_excluded_column (TableBuilder.manager self) m column col) /\
  (forall names column col,
      TableBuilder.model self = None ->
      Manager.options (TableBuilder.manager self) !! "exclude"
      = Some (VList names) ->
      h !! column = Some col ->
      excluded column_in self h column = column_in column col names).
Proof.
  split; [|split; [|split]].
  - pose proof (columns_run column_in self tx en op strategy Hexclude Htx Hop
                  Hstrategy Hend h cat Hlive) as Hrun.
    cbv zeta in Hrun.
    set (copies := reflections self (VStr tx) h (kept column_in self h)).
    assert (Hall :
      reflected_part column_in self tx h ++ appended_part tx en op strategy
      = copies ++ (if existsb (String.eqb tx) (map Column.key copies)
                   then [] else [plain_transaction tx])
               ++ appended_part tx en op strategy).
    { unfold reflected_part. fold copies.
      destruct (existsb _ _); [reflexivity|]. now rewrite <- app_assoc. }
    rewrite Hall in Hrun.
    exists copies,
      ((if existsb (String.eqb tx) (map Column.key copies)
        then [] else [plain_transaction tx])
         ++ appended_part tx en op strategy).
    split; [exact Hrun|]. split; [apply deref_fresh|]. split; [|split].
    + apply Forall2_and_l.
      * apply reflections_Forall2. now apply filter_live.
      * apply filter_sources.
    + reflexivity.
    + apply seq_fresh.
  - intros column Hex Hin. apply filter_In in Hin as [_ Hin].
    rewrite Hex in Hin. discriminate Hin.
  - intros m column col Hm Hcol. unfold excluded. now rewrite Hcol, Hm.
  - intros names column col Hm Hx Hcol. unfold excluded.
    now rewrite Hcol, Hm, Hx.
Qed.

End ReflectedOrder.

(** Of the invoice columns, [id] and [amount] are copied, in that order. *)
Lemma columns_reflect_kept_in_order_witness :
  exists copies added,
    TableBuilder.columns Example.never_in (Example.builder "flat")
      Example.start
    = (Return (seq 3 (length (copies ++ added))),
       mkState (Example.invoice_heap ++ copies ++ added) ∅) /\
    map Column.name copies = ["id"; "amount"] /\
    map Column.name added
    = ["transaction_id"; "transaction_id"; "operation_type"].
Proof.
  destruct (columns_reflect_kept_in_order Example.never_in
              (Example.builder "flat") "transaction_id" "end_transaction_id"
              "operation_type" (VStr "flat") Example.invoice_heap ∅)
    as ((copies & added & Hrun & _ & Hcopies & Hadded & _) & _).
  - apply builder_has_model.
  - vm_compute. reflexivity.
  - vm_compute. reflexivity.
  - vm_compute. reflexivity.
  - intros H. vm_compute in H. discriminate H.
  - apply invoice_columns_live.
  - exists copies, added. split; [exact Hrun|].
    change (List.filter _ _) with [0; 1] in Hcopies.
    inversion Hcopies as [|c0 x0 l0 k0 H0 Hrest]; subst.
    inversion Hrest as [|c1 x1 l1 k1 H1 Hnil]; subst.
    inversion Hnil; subst.
    destruct H0 as (_ & col0 & Hl0 & ->), H1 as (_ & col1 & Hl1 & ->).
    inversion Hl0; inversion Hl1; subst. split; reflexivity.
Defined.

(** ** Table names *)

Section Formatting.

Variable format_other :
  ascii -> string -> Datatypes.option string -> PyResult string.

Lemma str_format_literal (s rest : string) (arg : Datatypes.option string) :
  percent_free s = true ->
  str_format format_other (s +:+ rest) arg
  = match str_format format_other rest arg with
    | Return out => Return (s +:+ out)
    | Raise e => Raise e
    end.
Proof.
  induction s as [|ch s IH]; intros Hfree.
  - change ("" +:+ rest) with rest.
    now destruct (str_format format_other rest arg).
  - simpl in Hfree. apply andb_true_iff in Hfree as [Hch Hs].
    apply negb_true_iff in Hch.
    change (String ch s +:+ rest) with (String ch (s +:+ rest)).
    cbn [str_format]. rewrite Hch, (IH Hs).
    now destruct (str_format format_other rest arg).
Qed.

Lemma str_format_plain (s : string) :
  percent_free s = true -> str_format format_other s None = Return s.
Proof.
  induction s as [|ch s IH]; intros Hfree; [reflexivity|].
  simpl in Hfree. apply andb_true_iff in Hfree as [Hch Hs].
  apply negb_true_iff in Hch. cbn [str_format]. now rewrite Hch, (IH Hs).
Qed.

(** A template with one [%s] slot: the operand takes the place of the
    slot. *)
Lemma str_format_slot (pre post name : string) :
  percent_free pre = true ->
  percent_free post = true ->
  str_format format_other (pre +:+ "%s" +:+ post) (Some name)
  = Return (pre +:+ name +:+ post).
Proof.
  intros Hpre Hpost. rewrite (str_format_literal pre) by assumption.
  change ("%s" +:+ post) with (String "%" (String "s" post)).
  cbn [str_format]. change (Ascii.eqb "%" "%") with true.
  change (Ascii.eqb "s" "%") with false. change (Ascii.eqb "s" "s") with true.
  cbv iota. now rewrite (str_format_plain post Hpost).
Qed.

Lemma str_format_no_slot (s a : string) :
  percent_free s = true ->
  str_format format_other s (Some a) = Raise TypeError.
Proof.
  induction s as [|ch s IH]; intros Hfree; [reflexivity|].
  simpl in Hfree. apply andb_true_iff in Hfree as [Hch Hs].
  apply negb_true_iff in Hch. cbn [str_format]. now rewrite Hch, (IH Hs).
Qed.

End Formatting.

(** ** The build call *)

Section Build.

Variable column_in : loc -> Column.t -> list string -> bool.
Variable hook : TableBuilder.t -> list loc -> M (list loc).
Variable format_other :
  ascii -> string -> Datatypes.option string -> PyResult string.

(** What an extend-mode call runs: the hook on the empty list, then the
    table constructor on the existing table's name. *)
Lemma call_extend self existing st :
  TableBuilder.__call__ column_in hook format_other self (Some existing) st
  = bind (hook self [])
         (fun columns =>
            sa_Table (Table.name existing)
                     (Table.metadata (TableBuilder.parent_table self))
                     columns true) st.
Proof.
  unfold TableBuilder.__call__.
  erewrite bind_Return by apply base_columns_extend.
  unfold bind. destruct (hook self [] st) as [[columns|e] st1]; reflexivity.
Qed.

(** C4. In extend mode the base column list is empty; when the table
    handed in is the one the parent's catalog holds under its name, the
    call returns that table, same name and same catalog, with the columns
    the plugin hook added after its own; the catalog entry is replaced in
    place and no entry is created. *)
Theorem extend_mode_build self existing st added st1 :
  hook self [] st = (Return added, st1) ->
  catalog st1 !! (Table.metadata (TableBuilder.parent_table self),
                  Table.name existing) = Some existing ->
  TableBuilder.base_columns column_in self (Some existing) st
  = (Return [], st) /\
  TableBuilder.__call__ column_in hook format_other self (Some existing) st
  = sa_Table (Table.name existing)
             (Table.metadata (TableBuilder.parent_table self)) added true st1 /\
  exists table st',
    TableBuilder.__call__ column_in hook format_other self (Some existing) st
    = (Return table, st') /\
    Table.name table = Table.name existing /\
    Table.metadata table = Table.metadata existing /\
    Table.c table = Table.c existing ++ added /\
    heap st' = heap st1 /\
    catalog st'
    = <[(Table.metadata (TableBuilder.parent_table self),
         Table.name existing) := table]> (catalog st1) /\
    dom (catalog st') = dom (catalog st1).
Proof.
  intros Hhook Hreg.
  assert (Hcall :
    TableBuilder.__call__ column_in hook format_other self (Some existing) st
    = sa_Table (Table.name existing)
        (Table.metadata (TableBuilder.parent_table self)) added true st1).
  { rewrite call_extend. unfold bind. now rewrite Hhook. }
  split; [reflexivity|]. split; [exact Hcall|].
  rewrite Hcall. unfold sa_Table. rewrite Hreg.
  eexists _, _. split; [reflexivity|]. cbn [Table.name Table.metadata Table.c
    heap catalog]. repeat split.
  apply dom_insert_lookup_L. now rewrite Hreg.
Qed.

(** C8. In normal mode the table is built under the name that the
    [table_name] template gives for the parent table's name and in the
    parent table's catalog.  When that name is free there, the new table
    is registered under it; when it is taken, the call ends with a catalog
    conflict and the state is the one the hook left. *)
Theorem normal_mode_build self st cols st1 cols' st2 pre post :
  TableBuilder.columns column_in self st = (Return cols, st1) ->
  hook self cols st1 = (Return cols', st2) ->
  TableBuilder.option self "table_name"
  = Return (VStr (pre +:+ "%s" +:+ post)) ->
  percent_free pre = true ->
  percent_free post = true ->
  let name := pre +:+ Table.name (TableBuilder.parent_table self) +:+ post in
  let metadata := Table.metadata (TableBuilder.parent_table self) in
  TableBuilder.table_name format_other self = Return name /\
  TableBuilder.__call__ column_in hook format_other self None st
  = sa_Table name metadata cols' false st2 /\
  (catalog st2 !! (metadata, name) = None ->
   TableBuilder.__call__ column_in hook format_other self None st
   = (Return (Table.mk name metadata cols'),
      mkState (heap st2)
              (<[(metadata, name) := Table.mk name metadata cols']>
                 (catalog st2)))) /\
  (forall existing,
      catalog st2 !! (metadata, name) = Some existing ->
      TableBuilder.__call__ column_in hook format_other self None st
      = (Raise CatalogConflictError, st2)).
Proof.
  intros Hcols Hhook Htpl Hpre Hpost name metadata.
  assert (Hname : TableBuilder.table_name format_other self = Return name).
  { unfold TableBuilder.table_name. rewrite Htpl. unfold py_mod.
    now apply str_format_slot. }
  assert (Hcall :
    TableBuilder.__call__ column_in hook format_other self None st
    = sa_Table name metadata cols' false st2).
  { unfold TableBuilder.__call__, TableBuilder.base_columns.
    erewrite bind_Return by exact Hcols.
    erewrite bind_Return by exact Hhook.
    erewrite bind_Return by (unfold lift; rewrite Hname; reflexivity).
    reflexivity. }
  split; [exact Hname|]. split; [exact Hcall|]. split.
  - intros Hfree. rewrite Hcall. unfold sa_Table. now rewrite Hfree.
  - intros existing Htaken. rewrite Hcall. unfold sa_Table.
    now rewrite Htaken.
Qed.

(** C10. An extend-mode call runs the hook once, on the empty list, and
    hands its columns to the table constructor under the existing table's
    name; the builder reads no option on the way.  Two builders whose
    parent tables share a catalog and on which the hook acts alike give the
    same result, whatever their managers and option values. *)
Theorem extend_mode_ignores_options self1 self2 existing st :
  Table.metadata (TableBuilder.parent_table self1)
  = Table.metadata (TableBuilder.parent_table self2) ->
  hook self1 [] st = hook self2 [] st ->
  TableBuilder.__call__ column_in hook format_other self1 (Some existing) st
  = TableBuilder.__call__ column_in hook format_other self2 (Some existing) st /\
  TableBuilder.__call__ column_in hook format_other self1 (Some existing) st
  = bind (hook self1 [])
         (fun columns =>
            sa_Table (Table.name existing)
                     (Table.metadata (TableBuilder.parent_table self1))
                     columns true) st.
Proof.
  intros Hmd Hhook. split; [|apply call_extend].
  rewrite !call_extend. unfold bind. now rewrite Hhook, Hmd.
Qed.

End Build.

(** Extending the invoice version table with no plugin leaves its columns
    as they are. *)
Lemma extend_mode_build_witness :
  exists table st',
    TableBuilder.__call__ Example.never_in Example.no_plugin
    Example.no_format
      (Example.builder "validity") (Some Example.invoice_version)
      Example.built
    = (Return table, st') /\
    Table.name table = "invoice_version" /\
    Table.c table = [3; 4; 5; 6; 7; 8] /\
    dom (catalog st') = dom (catalog Example.built).
Proof.
  destruct (extend_mode_build Example.never_in Example.no_plugin
              Example.no_format
              (Example.builder "validity") Example.invoice_version
              Example.built [] Example.built)
    as (_ & _ & table & st' & Hrun & Hname & _ & Hc & _ & _ & Hdom).
  - reflexivity.
  - vm_compute. reflexivity.
  - exists table, st'. repeat split; assumption.
Defined.

(** A second normal-mode build of the invoice version table is a catalog
    conflict. *)
Lemma normal_mode_build_witness :
  TableBuilder.table_name Example.no_format (Example.builder "validity")
  = Return "invoice_version" /\
  TableBuilder.__call__ Example.never_in Example.no_plugin
    Example.no_format
    (Example.builder "validity") None Example.built
  = (Raise CatalogConflictError,
     snd (TableBuilder.columns Example.never_in (Example.builder "validity")
            Example.built)).
Proof.
  destruct (normal_mode_build Example.never_in Example.no_plugin
              Example.no_format
              (Example.builder "validity") Example.built
              [9; 10; 11; 12; 13; 14]
              (snd (TableBuilder.columns Example.never_in
                      (Example.builder "validity") Example.built))
              [9; 10; 11; 12; 13; 14]
              (snd (TableBuilder.columns Example.never_in
                      (Example.builder "validity") Example.built))
              "" "_version")
    as (Hname & _ & _ & Hconflict).
  - vm_compute. reflexivity.
  - reflexivity.
  - vm_compute. reflexivity.
  - reflexivity.
  - reflexivity.
  - split; [exact Hname|].
    apply (Hconflict Example.invoice_version). vm_compute. reflexivity.
Defined.

(** A builder with empty options extends the invoice version table like
    the configured one. *)
Lemma extend_mode_ignores_options_witness :
  TableBuilder.__call__ Example.never_in Example.no_plugin
    Example.no_format
    (Example.builder "validity") (Some Example.invoice_version) Example.built
  = TableBuilder.__call__ Example.never_in Example.no_plugin
    Example.no_format
      Example.bare_builder (Some Example.invoice_version) Example.built.
Proof.
  apply (extend_mode_ignores_options Example.never_in Example.no_plugin
              Example.no_format
           (Example.builder "validity") Example.bare_builder
           Example.invoice_version Example.built).
  - reflexivity.
  - reflexivity.
Defined.

(** ** What a run never touches *)

Lemma preserves_refl st : preserves st st.
Proof. now split. Qed.

Lemma preserves_length st st' :
  preserves st st' -> length (heap st) <= length (heap st').
Proof.
  intros [_ Hl]. destruct (heap st) as [|col rest] eqn:Hh; [simpl; lia|].
  assert (Hlast : length rest < length (col :: rest)) by (simpl; lia).
  specialize (Hl _ Hlast).
  destruct (lookup_lt_is_Some_2 (col :: rest) _ Hlast) as [x Hx].
  rewrite Hx in Hl. apply lookup_lt_Some in Hl. simpl in *. lia.
Qed.

Lemma preserves_trans st1 st2 st3 :
  preserves st1 st2 -> preserves st2 st3 -> preserves st1 st3.
Proof.
  intros H12 H23. pose proof (preserves_length _ _ H12) as Hlen.
  destruct H12 as [Hc12 Hl12], H23 as [Hc23 Hl23]. split.
  - congruence.
  - intros l Hl. rewrite Hl23 by lia. now apply Hl12.
Qed.

Lemma frames_ret {A} (a : A) : frames (ret a).
Proof. intros st. apply preserves_refl. Qed.

Lemma frames_raise {A} (e : exn) : frames (@raise A e).
Proof. intros st. apply preserves_refl. Qed.

Lemma frames_lift {A} (r : PyResult A) : frames (lift r).
Proof. intros st. apply preserves_refl. Qed.

Lemma frames_getattr l : frames (getattr l).
Proof.
  intros st. unfold getattr. destruct (heap st !! l); apply preserves_refl.
Qed.

Lemma frames_alloc col : frames (alloc col).
Proof.
  intros st. unfold alloc; simpl. split; [reflexivity|].
  intros l Hl. simpl. now apply lookup_app_l.
Qed.

Lemma frames_bind {A B} (m : M A) (k : A -> M B) :
  frames m -> (forall a, frames (k a)) -> frames (bind m k).
Proof.
  intros Hm Hk st. unfold bind. specialize (Hm st).
  destruct (m st) as [[a|e] st1]; simpl in Hm; [|exact Hm].
  eapply preserves_trans; [exact Hm | apply Hk].
Qed.

Lemma frames_sa_Column name ty pk nu ix ai :
  frames (sa_Column name ty pk nu ix ai).
Proof.
  unfold sa_Column. destruct name; auto using frames_alloc, frames_raise.
Qed.

Lemma frames_keys_of columns : frames (TableBuilder.keys_of columns).
Proof.
  induction columns as [|c rest IH]; simpl; [apply frames_ret|].
  apply frames_bind; [apply frames_getattr|]. intros col.
  apply frames_bind; [exact IH|]. intros keys. apply frames_ret.
Qed.

Lemma frames_parent_columns_step column_in self column :
  frames (TableBuilder.parent_columns_step column_in self column).
Proof.
  unfold TableBuilder.parent_columns_step.
  apply frames_bind.
  - destruct (TableBuilder.model self); [|apply frames_ret].
    apply frames_bind; [apply frames_getattr|]. intros col. apply frames_ret.
  - intros [|]; [apply frames_ret|]. apply frames_bind.
    + destruct (TableBuilder.model self); [apply frames_ret|].
      destruct (Manager.options _ !! "exclude"); [|apply frames_raise].
      apply frames_bind; [apply frames_getattr|]. intros col.
      apply frames_lift.
    + intros [|]; apply frames_ret.
Qed.

Lemma frames_reflect_column self column :
  frames (TableBuilder.reflect_column self column).
Proof.
  intros [h cat].
  destruct (TableBuilder.reflect_column self column (mkState h cat))
    as [r st'] eqn:Hrun.
  apply reflect_column_frame in Hrun. exact Hrun.
Qed.

Lemma frames_for_append gen body :
  Forall frames gen -> (forall column, frames (body column)) ->
  forall columns, frames (TableBuilder.for_append gen body columns).
Proof.
  intros Hgen Hbody. induction Hgen as [|step rest Hstep _ IH];
    intros columns; simpl; [apply frames_ret|].
  apply frames_bind; [exact Hstep|]. intros [column|]; [|apply IH].
  apply frames_bind; [apply Hbody|]. intros column_copy. apply IH.
Qed.

Lemma frames_reflected_columns column_in self :
  frames (TableBuilder.reflected_columns column_in self).
Proof.
  unfold TableBuilder.reflected_columns.
  apply frames_bind; [apply frames_lift|]. intros txv.
  apply frames_bind.
  - apply frames_for_append; [|apply frames_reflect_column].
    unfold TableBuilder.parent_columns. apply Forall_forall.
    intros step Hstep. apply list_elem_of_fmap in Hstep as [column [-> _]].
    apply frames_parent_columns_step.
  - intros columns. apply frames_bind; [apply frames_keys_of|]. intros keys.
    destruct (negb _); [|apply frames_ret].
    apply frames_bind; [apply frames_sa_Column|]. intros c. apply frames_ret.
Qed.

Lemma frames_columns column_in self :
  frames (TableBuilder.columns column_in self).
Proof.
  unfold TableBuilder.columns.
  apply frames_bind; [apply frames_reflected_columns|]. intros data.
  apply frames_bind.
  { unfold TableBuilder.transaction_column.
    apply frames_bind; [apply frames_lift|]. intros name.
    apply frames_sa_Column. }
  intros column. apply frames_bind; [apply frames_lift|]. intros strategy.
  apply frames_bind.
  { destruct (value_eqb strategy (VStr "validity")); [|apply frames_ret].
    apply frames_bind; [|intros c; apply frames_ret].
    unfold TableBuilder.end_transaction_column.
    apply frames_bind; [apply frames_lift|]. intros name.
    apply frames_sa_Column. }
  intros data'. apply frames_bind; [|intros c; apply frames_ret].
  unfold TableBuilder.operation_type_column.
  apply frames_bind; [apply frames_lift|]. intros name.
  apply frames_sa_Column.
Qed.

(** X11. Whatever its outcome, a value or an exception, [columns] leaves
    the catalog and every column that was on the heap as they were: the
    parent table's columns are only read. *)
Theorem columns_preserves column_in self st :
  preserves st (snd (TableBuilder.columns column_in self st)).
Proof. apply frames_columns. Qed.

(** ** More on column reflection *)

Lemma mapped_key_unmapped items column start :
  Forall (fun item : string * loc => snd item <> column) items ->
  mapped_key items column start = start.
Proof.
  unfold mapped_key. intros Hno. revert start.
  induction Hno as [|[k l] rest Hne _ IH]; intros start; simpl;
    [reflexivity|].
  simpl in Hne. apply Nat.eqb_neq in Hne. rewrite Hne. apply IH.
Qed.

Lemma mapped_key_last before k column after start :
  Forall (fun item : string * loc => snd item <> column) after ->
  mapped_key (before ++ (k, column) :: after) column start = k.
Proof.
  intros Hno. unfold mapped_key. rewrite fold_left_app. simpl.
  rewrite Nat.eqb_refl. now apply mapped_key_unmapped.
Qed.

Section ReflectionDetails.

Variable self : TableBuilder.t.
Variables (h : list Column.t) (cat : gmap (nat * string) Table.t).
Variables (column : loc) (col : Column.t) (txv : Value).

Hypothesis Hcolumn : h !! column = Some col.

Section OptionRead.

Hypothesis Htx :
  TableBuilder.option self "transaction_column_name" = Return txv.

(** X1. The key of the copy.  With a mapped entity, the copy takes the
    attribute key of the last entry of the mapping whose column is the
    source object; with no such entry, or with no entity, it keeps the key
    of the source. *)
Theorem reflect_column_key :
  exists copy,
    TableBuilder.reflect_column self column (mkState h cat)
    = (Return (length h), mkState (h ++ [copy]) cat) /\
    (TableBuilder.model self = None -> Column.key copy = Column.key col) /\
    (forall m,
        TableBuilder.model self = Some m ->
        Forall (fun item => snd item <> column) (mapper_columns m) ->
        Column.key copy = Column.key col) /\
    (forall m before k after,
        TableBuilder.model self = Some m ->
        mapper_columns m = before ++ (k, column) :: after ->
        Forall (fun item => snd item <> column) after ->
        Column.key copy = k).
Proof.
  exists (reflected self txv column col).
  split; [now apply reflect_column_run|].
  unfold reflected, reflected_key; cbn [Column.key]. repeat split.
  - intros ->. reflexivity.
  - intros m -> Hno. now apply mapped_key_unmapped.
  - intros m before k after -> -> Hno. now apply mapped_key_last.
Qed.

(** X2. The copy has the name, the type, the primary-key flag and the
    index flag of the source. *)
Theorem reflect_column_keeps_definition :
  exists copy,
    TableBuilder.reflect_column self column (mkState h cat)
    = (Return (length h), mkState (h ++ [copy]) cat) /\
    Column.name copy = Column.name col /\
    Column.type_ copy = Column.type_ col /\
    Column.primary_key copy = Column.primary_key col /\
    Column.index copy = Column.index col.
Proof.
  exists (reflected self txv column col).
  split; [now apply reflect_column_run|]. repeat split.
Qed.

(** X3. The nullable flag of the copy.  A column outside the primary key
    comes out nullable, whatever its name; a primary-key column named like
    the transaction column comes out non-null; any other primary-key
    column keeps its flag. *)
Theorem reflect_column_nullable_cases :
  exists copy,
    TableBuilder.reflect_column self column (mkState h cat)
    = (Return (length h), mkState (h ++ [copy]) cat) /\
    (Column.primary_key col = false -> Column.nullable copy = true) /\
    (Column.primary_key col = true ->
     txv = VStr (Column.name col) ->
     Column.nullable copy = false) /\
    (Column.primary_key col = true ->
     txv <> VStr (Column.name col) ->
     Column.nullable copy = Column.nullable col).
Proof.
  exists (reflected self txv column col).
  split; [now apply reflect_column_run|].
  rewrite reflected_nullable. repeat split.
  - intros ->. reflexivity.
  - intros -> ->. simpl. now rewrite String.eqb_refl.
  - intros -> Hne.
    destruct (value_eqb (VStr (Column.name col)) txv) eqn:E; [|reflexivity].
    apply value_eqb_eq in E. now destruct Hne.
Qed.

(** X5. Reflecting the copy once more gives a column with the same
    attributes, when the mapping of the entity does not mention the copy. *)
Theorem reflect_column_twice :
  (forall m,
      TableBuilder.model self = Some m ->
      Forall (fun item => snd item <> length h) (mapper_columns m)) ->
  exists copy,
    TableBuilder.reflect_column self column (mkState h cat)
    = (Return (length h), mkState (h ++ [copy]) cat) /\
    TableBuilder.reflect_column self (length h) (mkState (h ++ [copy]) cat)
    = (Return (S (length h)), mkState (h ++ [copy; copy]) cat).
Proof.
  intros Hunmapped. exists (reflected self txv column col).
  split; [now apply reflect_column_run|].
  rewrite (reflect_column_run self (h ++ [reflected self txv column col]) cat
             (length h) (reflected self txv column col) txv)
    by (apply lookup_fresh || exact Htx).
  rewrite length_app, Nat.add_1_r, <- app_assoc. cbn [app].
  do 4 f_equal.
  unfold reflected at 1. unfold reflected_key at 1.
  assert (Hkey :
    match TableBuilder.model self with
    | Some m => mapped_key (mapper_columns m) (length h)
                  (Column.key (reflected self txv column col))
    | None => Column.key (reflected self txv column col)
    end = Column.key (reflected self txv column col)).
  { destruct (TableBuilder.model self) as [m|] eqn:Hm; [|reflexivity].
    apply mapped_key_unmapped. now apply Hunmapped. }
  rewrite Hkey. unfold reflected; cbn [Column.name Column.key Column.type_
    Column.primary_key Column.nullable Column.index].
  destruct (Column.primary_key col); [|reflexivity].
  destruct (value_eqb (VStr (Column.name col)) txv); reflexivity.
Qed.

End OptionRead.

(** X4. When the transaction-column option cannot be read, [reflect_column]
    ends with the exception of the lookup; the columns that were on the
    heap and the catalog are as before. *)
Theorem reflect_column_option_error e :
  TableBuilder.option self "transaction_column_name" = Raise e ->
  exists st',
    TableBuilder.reflect_column self column (mkState h cat) = (Raise e, st') /\
    preserves (mkState h cat) st'.
Proof.
  intros Htx.
  destruct (TableBuilder.reflect_column self column (mkState h cat))
    as [r st'] eqn:Hrun.
  exists st'. split; [|now apply reflect_column_frame in Hrun].
  unfold TableBuilder.reflect_column in Hrun.
  erewrite bind_Return in Hrun by (apply Column_copy_run; eassumption).
  erewrite bind_Return in Hrun by apply setattr_fresh.
  erewrite bind_Return in Hrun by apply setattr_fresh.
  erewrite bind_Return in Hrun by apply getattr_fresh.
  erewrite bind_Return in Hrun by apply when_setattr_fresh.
  erewrite bind_Return in Hrun by apply getattr_fresh.
  erewrite bind_Raise in Hrun by (unfold lift; rewrite Htx; reflexivity).
  now inversion Hrun.
Qed.

End ReflectionDetails.

(** ** More on the column list *)

Lemma columns_from_reflected column_in self tx en op strategy h cat R :
  TableBuilder.option self "transaction_column_name" = Return (VStr tx) ->
  TableBuilder.option self "operation_type_column_name" = Return (VStr op) ->
  TableBuilder.option self "strategy" = Return strategy ->
  (value_eqb strategy (VStr "validity") = true ->
   TableBuilder.option self "end_transaction_column_name"
   = Return (VStr en)) ->
  TableBuilder.reflected_columns column_in self (mkState h cat)
  = (Return (seq (length h) (length R)), mkState (h ++ R) cat) ->
  TableBuilder.columns column_in self (mkState h cat)
  = (Return (seq (length h) (length (R ++ appended_part tx en op strategy))),
     mkState (h ++ R ++ appended_part tx en op strategy) cat).
Proof.
  intros Htx Hop Hstrategy Hend HR. unfold TableBuilder.columns.
  erewrite bind_Return by exact HR.
  erewrite bind_Return by (apply transaction_column_run; exact Htx).
  rewrite (seq_snoc_fresh h R (transaction_col tx)),
          <- (app_assoc h R [transaction_col tx]).
  set (RT := R ++ [transaction_col tx]).
  erewrite bind_Return by (unfold lift; rewrite Hstrategy; reflexivity).
  unfold appended_part.
  pose proof (end_transaction_column_run self en strategy Hend) as Hrun.
  destruct (value_eqb strategy (VStr "validity")).
  - erewrite bind_Return
      by (erewrite bind_Return by (apply Hrun; reflexivity);
          reflexivity).
    rewrite (seq_snoc_fresh h RT (end_transaction_col en)),
            <- (app_assoc h RT [end_transaction_col en]).
    set (RTE := RT ++ [end_transaction_col en]).
    erewrite bind_Return by (apply operation_type_column_run; exact Hop).
    unfold ret.
    rewrite (seq_snoc_fresh h RTE (operation_type_col op)),
            <- (app_assoc h RTE [operation_type_col op]).
    subst RTE RT. rewrite <- !app_assoc. reflexivity.
  - erewrite bind_Return by reflexivity.
    erewrite bind_Return by (apply operation_type_column_run; exact Hop).
    unfold ret.
    rewrite (seq_snoc_fresh h RT (operation_type_col op)),
            <- (app_assoc h RT [operation_type_col op]).
    subst RT. rewrite <- !app_assoc. reflexivity.
Qed.

Section ColumnListDetails.

Variable column_in : loc -> Column.t -> list string -> bool.
Variable self : TableBuilder.t.
Variables (tx en op : string) (strategy : Value).
Variables (h : list Column.t) (cat : gmap (nat * string) Table.t).

Hypothesis Htx :
  TableBuilder.option self "transaction_column_name" = Return (VStr tx).

Section Reflected.

Hypothesis Hexclude : exclude_available self.
Hypothesis Hlive :
  Forall (fun l => l < length h) (Table.c (TableBuilder.parent_table self)).

(** X6. A successful [reflected_columns] returns a column keyed by the
    transaction-column name.  When a copy of a parent column has that key,
    the copies are all it returns; when none has, it adds one column after
    them, named and keyed by the transaction-column name, big-integer
    typed, nullable, outside the primary key and without an index. *)
Theorem reflected_columns_transaction_key :
  exists locs st' copies,
    TableBuilder.reflected_columns column_in self (mkState h cat)
    = (Return locs, st') /\
    copies = reflections self (VStr tx) h (kept column_in self h) /\
    (((exists copy, In copy copies /\ Column.key copy = tx) /\
      deref (heap st') locs = copies) \/
     ((forall copy, In copy copies -> Column.key copy <> tx) /\
      deref (heap st') locs
      = copies ++ [Column.mk tx tx BigInteger true false AutoAuto
                             None None None])) /\
    exists found, In found (deref (heap st') locs) /\ Column.key found = tx.
Proof.
  eexists _, _, (reflections self (VStr tx) h (kept column_in self h)).
  split; [apply (reflected_columns_run column_in self tx Hexclude Htx h cat
                   Hlive)|].
  split; [reflexivity|].
  cbn [heap]. rewrite deref_fresh. unfold reflected_part.
  set (copies := reflections self (VStr tx) h (kept column_in self h)).
  destruct (existsb (String.eqb tx) (map Column.key copies)) eqn:Ein.
  - apply existsb_exists in Ein as (k & Hk & Heq).
    apply String.eqb_eq in Heq. subst k.
    apply in_map_iff in Hk as (copy & Hkey & Hin).
    split; [left; split; [exists copy; now split | reflexivity]|].
    exists copy. now split.
  - split.
    + right. split; [|reflexivity]. intros copy Hin Hkey.
      assert (Hex : existsb (String.eqb tx) (map Column.key copies) = true).
      { apply existsb_exists. exists (Column.key copy). split.
        - apply in_map_iff. now exists copy.
        - rewrite Hkey. apply String.eqb_refl. }
      congruence.
    + exists (plain_transaction tx). split; [|reflexivity].
      apply in_or_app. right. now left.
Qed.

(** X14. When [strategy], [end_transaction_column_name] under the
    validity strategy, or [operation_type_column_name] cannot be read,
    [columns] ends with the exception of that lookup.  By then the columns
    of [reflected_columns] and the transaction column have been created,
    and under the validity strategy the end-transaction column too when
    only the operation-type name is missing: the state holds them after
    the columns that were there. *)
Theorem columns_missing_option e :
  exists R,
    TableBuilder.reflected_columns column_in self (mkState h cat)
    = (Return (seq (length h) (length R)), mkState (h ++ R) cat) /\
    (TableBuilder.option self "strategy" = Raise e ->
     TableBuilder.columns column_in self (mkState h cat)
     = (Raise e, mkState (h ++ R ++ [transaction_col tx]) cat)) /\
    (forall s,
        TableBuilder.option self "strategy" = Return s ->
        value_eqb s (VStr "validity") = true ->
        TableBuilder.option self "end_transaction_column_name" = Raise e ->
        TableBuilder.columns column_in self (mkState h cat)
        = (Raise e, mkState (h ++ R ++ [transaction_col tx]) cat)) /\
    (forall s,
        TableBuilder.option self "strategy" = Return s ->
        value_eqb s (VStr "validity") = false ->
        TableBuilder.option self "operation_type_column_name" = Raise e ->
        TableBuilder.columns column_in self (mkState h cat)
        = (Raise e, mkState (h ++ R ++ [transaction_col tx]) cat)) /\
    (forall s end_name,
        TableBuilder.option self "strategy" = Return s ->
        value_eqb s (VStr "validity") = true ->
        TableBuilder.option self "end_transaction_column_name"
        = Return (VStr end_name) ->
        TableBuilder.option self "operation_type_column_name" = Raise e ->
        TableBuilder.columns column_in self (mkState h cat)
        = (Raise e,
           mkState (h ++ R ++ [transaction_col tx;
                               end_transaction_col end_name]) cat)).
Proof.
  pose proof (reflected_columns_run column_in self tx Hexclude Htx h cat Hlive)
    as HR.
  exists (reflected_part column_in self tx h).
  set (R := reflected_part column_in self tx h) in *.
  split; [exact HR|].
  assert (Hstart :
    TableBuilder.columns column_in self (mkState h cat)
    = bind (lift (TableBuilder.option self "strategy"))
        (fun strategy =>
           bind (if value_eqb strategy (VStr "validity")
                 then bind (TableBuilder.end_transaction_column self)
                        (fun column =>
                           ret ((seq (length h) (length R)
                                   ++ [length (h ++ R)]) ++ [column]))
                 else ret (seq (length h) (length R) ++ [length (h ++ R)]))
             (fun data =>
                bind (TableBuilder.operation_type_column self)
                  (fun column => ret (data ++ [column]))))
        (mkState (h ++ R ++ [transaction_col tx]) cat)).
  { unfold TableBuilder.columns.
    erewrite bind_Return by exact HR.
    erewrite bind_Return by (apply transaction_column_run; exact Htx).
    now rewrite <- app_assoc. }
  rewrite Hstart. clear Hstart.
  split; [|split; [|split]].
  - intros Hs.
    now erewrite bind_Raise by (unfold lift; rewrite Hs; reflexivity).
  - intros s Hs Hv He.
    erewrite bind_Return by (unfold lift; rewrite Hs; reflexivity).
    rewrite Hv. unfold TableBuilder.end_transaction_column.
    now erewrite bind_Raise
      by (erewrite bind_Raise
            by (erewrite bind_Raise
                  by (unfold lift; rewrite He; reflexivity);
                reflexivity);
          reflexivity).
  - intros s Hs Hv He.
    erewrite bind_Return by (unfold lift; rewrite Hs; reflexivity).
    rewrite Hv. erewrite bind_Return by reflexivity.
    unfold TableBuilder.operation_type_column.
    now erewrite bind_Raise
      by (erewrite bind_Raise by (unfold lift; rewrite He; reflexivity);
          reflexivity).
  - intros s end_name Hs Hv Hen He.
    erewrite bind_Return by (unfold lift; rewrite Hs; reflexivity).
    rewrite Hv.
    erewrite bind_Return
      by (erewrite bind_Return
            by (unfold TableBuilder.end_transaction_column;
                erewrite bind_Return
                  by (unfold lift; rewrite Hen; reflexivity);
                reflexivity);
          reflexivity).
    cbn [heap catalog]. unfold TableBuilder.operation_type_column.
    erewrite bind_Raise
      by (erewrite bind_Raise by (unfold lift; rewrite He; reflexivity);
          reflexivity).
    now rewrite <- !app_assoc.
Qed.

Hypothesis Hop :
  TableBuilder.option self "operation_type_column_name" = Return (VStr op).
Hypothesis Hstrategy : TableBuilder.option self "strategy" = Return strategy.
Hypothesis Hend :
  value_eqb strategy (VStr "validity") = true ->
  TableBuilder.option self "end_transaction_column_name" = Return (VStr en).

(** X10. A successful [columns] returns each column object it created
    exactly once and nothing else: the locations on the list are pairwise
    distinct, none was in use before, each holds a column afterwards, and
    the heap has grown by as many columns as the list is long. *)
Theorem columns_fresh_distinct :
  exists locs st',
    TableBuilder.columns column_in self (mkState h cat) = (Return locs, st') /\
    NoDup locs /\
    Forall (fun l => h !! l = None /\ is_Some (heap st' !! l)) locs /\
    length (heap st') = length h + length locs.
Proof.
  pose proof (columns_run column_in self tx en op strategy Hexclude Htx Hop
                Hstrategy Hend h cat Hlive) as Hrun.
  cbv zeta in Hrun. eexists _, _. split; [exact Hrun|]. cbn [heap].
  split; [apply NoDup_seq|]. split.
  - apply Forall_forall. intros l Hl. apply elem_of_seq in Hl. split.
    + apply lookup_ge_None_2. lia.
    + apply lookup_lt_is_Some_2. rewrite length_app. lia.
  - rewrite length_app, length_seq. reflexivity.
Qed.

End Reflected.

End ColumnListDetails.

(** ** Edge cases and failures of a build *)

(** X13. A [table_name] template without a substitution slot does not
    name the table after the template: [table_name] ends with a
    [TypeError]. *)
Theorem table_name_without_slot format_other self template :
  TableBuilder.option self "table_name" = Return (VStr template) ->
  percent_free template = true ->
  TableBuilder.table_name format_other self = Raise TypeError.
Proof.
  intros Htpl Hfree. unfold TableBuilder.table_name. rewrite Htpl.
  now apply str_format_no_slot.
Qed.

Section BuildEdges.

Variable column_in : loc -> Column.t -> list string -> bool.
Variable hook : TableBuilder.t -> list loc -> M (list loc).
Variable format_other :
  ascii -> string -> Datatypes.option string -> PyResult string.
Variable self : TableBuilder.t.

(** X7. For a parent table without columns the exclusion test is never
    run, so [exclude] is not needed: the column list is the plain
    transaction column of [reflected_columns] followed by the appended
    columns. *)
Theorem columns_empty_parent tx en op strategy h cat :
  Table.c (TableBuilder.parent_table self) = [] ->
  TableBuilder.option self "transaction_column_name" = Return (VStr tx) ->
  TableBuilder.option self "operation_type_column_name" = Return (VStr op) ->
  TableBuilder.option self "strategy" = Return strategy ->
  (value_eqb strategy (VStr "validity") = true ->
   TableBuilder.option self "end_transaction_column_name"
   = Return (VStr en)) ->
  exists locs st',
    TableBuilder.columns column_in self (mkState h cat) = (Return locs, st') /\
    deref (heap st') locs
    = Column.mk tx tx BigInteger true false AutoAuto None None None
        :: appended_part tx en op strategy.
Proof.
  intros Hempty Htx Hop Hstrategy Hend.
  assert (HR :
    TableBuilder.reflected_columns column_in self (mkState h cat)
    = (Return (seq (length h) (length [plain_transaction tx])),
       mkState (h ++ [plain_transaction tx]) cat)).
  { unfold TableBuilder.reflected_columns, TableBuilder.parent_columns.
    rewrite Hempty.
    erewrite bind_Return by (unfold lift; rewrite Htx; reflexivity).
    reflexivity. }
  eexists _, _. split.
  - apply (columns_from_reflected column_in self tx en op strategy h cat
             [plain_transaction tx]); assumption.
  - cbn [heap]. apply deref_fresh.
Qed.

(** X8. Without a mapped entity and without [exclude] among the default
    options, a parent table that has a column cannot be built: the first
    exclusion test raises [KeyError] before any column is copied, the
    state is untouched and the plugin hook is not run. *)
Theorem missing_exclude_is_key_error txv column rest st :
  TableBuilder.model self = None ->
  Manager.options (TableBuilder.manager self) !! "exclude" = None ->
  Table.c (TableBuilder.parent_table self) = column :: rest ->
  TableBuilder.option self "transaction_column_name" = Return txv ->
  TableBuilder.reflected_columns column_in self st = (Raise KeyError, st) /\
  TableBuilder.columns column_in self st = (Raise KeyError, st) /\
  TableBuilder.__call__ column_in hook format_other self None st = (Raise KeyError, st).
Proof.
  intros Hmodel Hexclude Hc Htx.
  assert (HR :
    TableBuilder.reflected_columns column_in self st = (Raise KeyError, st)).
  { unfold TableBuilder.reflected_columns, TableBuilder.parent_columns.
    rewrite Hc.
    erewrite bind_Return by (unfold lift; rewrite Htx; reflexivity).
    cbn [map TableBuilder.for_append].
    unfold TableBuilder.parent_columns_step. rewrite Hmodel, Hexclude.
    reflexivity. }
  assert (HC : TableBuilder.columns column_in self st = (Raise KeyError, st)).
  { unfold TableBuilder.columns. now erewrite bind_Raise by exact HR. }
  split; [exact HR|]. split; [exact HC|].
  unfold TableBuilder.__call__, TableBuilder.base_columns.
  now erewrite bind_Raise by exact HC.
Qed.

(** X15. Without a mapped entity, an [exclude] option that is a string
    or [None] instead of a list fails the first exclusion test with a
    [TypeError]: no column is copied, the plugin hook is not run and the
    state is untouched. *)
Theorem exclude_not_a_list_is_type_error txv exclude column rest col st :
  TableBuilder.model self = None ->
  Manager.options (TableBuilder.manager self) !! "exclude" = Some exclude ->
  (forall names, exclude <> VList names) ->
  Table.c (TableBuilder.parent_table self) = column :: rest ->
  heap st !! column = Some col ->
  TableBuilder.option self "transaction_column_name" = Return txv ->
  TableBuilder.reflected_columns column_in self st = (Raise TypeError, st) /\
  TableBuilder.columns column_in self st = (Raise TypeError, st) /\
  TableBuilder.__call__ column_in hook format_other self None st
  = (Raise TypeError, st).
Proof.
  intros Hmodel Hexclude Hnolist Hc Hcol Htx.
  assert (Hin : TableBuilder.contains column_in column col exclude
                = Raise TypeError).
  { destruct exclude as [s|names|]; try reflexivity.
    now destruct (Hnolist names). }
  assert (HR :
    TableBuilder.reflected_columns column_in self st = (Raise TypeError, st)).
  { unfold TableBuilder.reflected_columns, TableBuilder.parent_columns.
    rewrite Hc.
    erewrite bind_Return by (unfold lift; rewrite Htx; reflexivity).
    cbn [map TableBuilder.for_append].
    assert (Hstep :
      TableBuilder.parent_columns_step column_in self column st
      = (Raise TypeError, st)).
    { unfold TableBuilder.parent_columns_step. rewrite Hmodel, Hexclude.
      unfold bind, ret, getattr, lift. rewrite Hcol, Hin. reflexivity. }
    erewrite bind_Raise
      by (erewrite bind_Raise by exact Hstep; reflexivity).
    reflexivity. }
  assert (HC :
    TableBuilder.columns column_in self st = (Raise TypeError, st)).
  { unfold TableBuilder.columns. now erewrite bind_Raise by exact HR. }
  split; [exact HR|]. split; [exact HC|].
  unfold TableBuilder.__call__, TableBuilder.base_columns.
  now erewrite bind_Raise by exact HC.
Qed.

(** X9. When the transaction-column name cannot be read, a normal-mode
    build ends with the exception of that lookup before anything else
    happens: no column is copied, the plugin hook is not run and the state
    is untouched. *)
Theorem build_without_transaction_name e st :
  TableBuilder.option self "transaction_column_name" = Raise e ->
  TableBuilder.columns column_in self st = (Raise e, st) /\
  TableBuilder.__call__ column_in hook format_other self None st = (Raise e, st).
Proof.
  intros Htx.
  assert (HC : TableBuilder.columns column_in self st = (Raise e, st)).
  { unfold TableBuilder.columns, TableBuilder.reflected_columns.
    erewrite bind_Raise
      by (erewrite bind_Raise by (unfold lift; rewrite Htx; reflexivity);
          reflexivity).
    reflexivity. }
  split; [exact HC|].
  unfold TableBuilder.__call__, TableBuilder.base_columns.
  now erewrite bind_Raise by exact HC.
Qed.


End BuildEdges.

(** ** The further properties on the example tables *)

Lemma raw_invoice_columns_live :
  Forall (fun l => l < length Example.invoice_heap) [0; 1; 2].
Proof. repeat (constructor; [simpl; lia|]). constructor. Qed.

(** The [amount] column, mapped twice, is keyed by the later attribute. *)
Lemma reflect_column_key_witness :
  exists copy,
    TableBuilder.reflect_column Cases.aliased_builder 1 Example.start
    = (Return 3, mkState (Example.invoice_heap ++ [copy]) ∅) /\
    Column.key copy = "total".
Proof.
  destruct (reflect_column_key Cases.aliased_builder Example.invoice_heap ∅ 1
              Example.amount_column (VStr "transaction_id"))
    as (copy & Hrun & _ & _ & Hlast).
  - reflexivity.
  - vm_compute. reflexivity.
  - exists copy. split; [exact Hrun|].
    apply (Hlast Cases.Aliased [("id", 0); ("amount", 1)] "total"
                 [("created_at", 2)]).
    + reflexivity.
    + reflexivity.
    + repeat constructor. simpl. lia.
Defined.

(** The copy of [id] is still the integer primary key named [id]. *)
Lemma reflect_column_keeps_definition_witness :
  exists copy,
    TableBuilder.reflect_column (Example.builder "flat") 0 Example.start
    = (Return 3, mkState (Example.invoice_heap ++ [copy]) ∅) /\
    Column.name copy = "id" /\
    Column.type_ copy = Integer /\
    Column.primary_key copy = true /\
    Column.index copy = None.
Proof.
  apply (reflect_column_keeps_definition (Example.builder "flat")
           Example.invoice_heap ∅ 0 Example.id_column
           (VStr "transaction_id")).
  - reflexivity.
  - vm_compute. reflexivity.
Defined.

(** The non-null [amount] column is copied nullable. *)
Lemma reflect_column_nullable_cases_witness :
  exists copy,
    TableBuilder.reflect_column (Example.builder "flat") 1 Example.start
    = (Return 3, mkState (Example.invoice_heap ++ [copy]) ∅) /\
    Column.nullable copy = true.
Proof.
  destruct (reflect_column_nullable_cases (Example.builder "flat")
              Example.invoice_heap ∅ 1 Example.amount_column
              (VStr "transaction_id"))
    as (copy & Hrun & Hnonpk & _).
  - reflexivity.
  - vm_compute. reflexivity.
  - exists copy. split; [exact Hrun|]. now apply Hnonpk.
Defined.

(** With empty options the copy of [id] fails on the missing name. *)
Lemma reflect_column_option_error_witness :
  exists st',
    TableBuilder.reflect_column Example.bare_builder 0 Example.start
    = (Raise KeyError, st') /\
    preserves Example.start st'.
Proof.
  apply (reflect_column_option_error Example.bare_builder
           Example.invoice_heap ∅ 0 Example.id_column).
  - reflexivity.
  - reflexivity.
Defined.

(** Copying the copy of [amount]. *)
Lemma reflect_column_twice_witness :
  exists copy,
    TableBuilder.reflect_column (Example.builder "flat") 1 Example.start
    = (Return 3, mkState (Example.invoice_heap ++ [copy]) ∅) /\
    TableBuilder.reflect_column (Example.builder "flat") 3
      (mkState (Example.invoice_heap ++ [copy]) ∅)
    = (Return 4, mkState (Example.invoice_heap ++ [copy; copy]) ∅).
Proof.
  apply (reflect_column_twice (Example.builder "flat") Example.invoice_heap ∅
           1 Example.amount_column (VStr "transaction_id")).
  - reflexivity.
  - vm_compute. reflexivity.
  - intros m Hm. inversion Hm; subst m.
    repeat (constructor; [simpl; lia|]). constructor.
Defined.

(** The invoice table has no column keyed [transaction_id], so one is
    added. *)
Lemma reflected_columns_transaction_key_witness :
  exists locs st' found,
    TableBuilder.reflected_columns Example.never_in (Example.builder "flat")
      Example.start
    = (Return locs, st') /\
    In found (deref (heap st') locs) /\
    Column.key found = "transaction_id".
Proof.
  destruct (reflected_columns_transaction_key Example.never_in
              (Example.builder "flat") "transaction_id"
              Example.invoice_heap ∅)
    as (locs & st' & copies & Hrun & _ & _ & found & Hin & Hkey).
  - vm_compute. reflexivity.
  - apply builder_has_model.
  - apply raw_invoice_columns_live.
  - exists locs, st', found. repeat split; assumption.
Defined.

(** A builder without [strategy] fails on it. *)
Lemma columns_missing_option_witness :
  exists R,
    TableBuilder.columns Example.never_in Cases.no_strategy_builder
      Example.start
    = (Raise KeyError,
       mkState (Example.invoice_heap ++ R ++ [transaction_col "transaction_id"])
               ∅).
Proof.
  destruct (columns_missing_option Example.never_in Cases.no_strategy_builder
              "transaction_id" Example.invoice_heap ∅) with (e := KeyError)
    as (R & _ & Hstrategy & _).
  - vm_compute. reflexivity.
  - intros _. vm_compute. eauto.
  - apply raw_invoice_columns_live.
  - exists R. apply Hstrategy. reflexivity.
Defined.

(** The six new columns of the invoice version table. *)
Lemma columns_fresh_distinct_witness :
  exists locs st',
    TableBuilder.columns Example.never_in (Example.builder "validity")
      Example.start
    = (Return locs, st') /\
    NoDup locs /\
    Forall (fun l => Example.invoice_heap !! l = None /\
                     is_Some (heap st' !! l)) locs /\
    length (heap st') = 3 + length locs.
Proof.
  apply (columns_fresh_distinct Example.never_in (Example.builder "validity")
           "transaction_id" "end_transaction_id" "operation_type"
           (VStr "validity") Example.invoice_heap ∅).
  - vm_compute. reflexivity.
  - apply builder_has_model.
  - apply raw_invoice_columns_live.
  - vm_compute. reflexivity.
  - vm_compute. reflexivity.
  - intros _. vm_compute. reflexivity.
Defined.

(** A table without columns builds without [exclude]. *)
Lemma columns_empty_parent_witness :
  exists locs st',
    TableBuilder.columns Example.never_in Cases.empty_builder
      (mkState [] ∅)
    = (Return locs, st') /\
    map Column.name (deref (heap st') locs)
    = ["transaction_id"; "transaction_id"; "operation_type"].
Proof.
  destruct (columns_empty_parent Example.never_in Cases.empty_builder
              "transaction_id" "end_transaction_id" "operation_type"
              (VStr "flat") [] ∅)
    as (locs & st' & Hrun & Hderef).
  - reflexivity.
  - vm_compute. reflexivity.
  - vm_compute. reflexivity.
  - vm_compute. reflexivity.
  - intros H. vm_compute in H. discriminate H.
  - exists locs, st'. split; [exact Hrun|]. rewrite Hderef. reflexivity.
Defined.

(** The raw invoice table without [exclude] cannot be built. *)
Lemma missing_exclude_is_key_error_witness :
  TableBuilder.__call__ Example.never_in Example.no_plugin
    Example.no_format
    Cases.no_exclude_builder None Example.start
  = (Raise KeyError, Example.start).
Proof.
  apply (missing_exclude_is_key_error Example.never_in Example.no_plugin
              Example.no_format
           Cases.no_exclude_builder (VStr "transaction_id") 0 [1; 2]
           Example.start).
  - reflexivity.
  - vm_compute. reflexivity.
  - reflexivity.
  - vm_compute. reflexivity.
Defined.

(** With empty options the build stops at once. *)
Lemma build_without_transaction_name_witness :
  TableBuilder.__call__ Example.never_in Example.no_plugin
    Example.no_format
    Example.bare_builder None Example.start
  = (Raise KeyError, Example.start).
Proof.
  apply (build_without_transaction_name Example.never_in Example.no_plugin
              Example.no_format
           Example.bare_builder KeyError Example.start).
  reflexivity.
Defined.


(** The template [versions] has no slot. *)
Lemma table_name_without_slot_witness :
  TableBuilder.table_name Example.no_format Cases.fixed_name_builder = Raise TypeError.
Proof.
  apply (table_name_without_slot Example.no_format Cases.fixed_name_builder
           "versions").
  - vm_compute. reflexivity.
  - reflexivity.
Defined.

(** A single name under [exclude] stops the build of the raw invoice
    table. *)
Lemma exclude_not_a_list_is_type_error_witness :
  TableBuilder.__call__ Example.never_in Example.no_plugin Example.no_format
    Cases.string_exclude_builder None Example.start
  = (Raise TypeError, Example.start).
Proof.
  apply (exclude_not_a_list_is_type_error Example.never_in Example.no_plugin
           Example.no_format Cases.string_exclude_builder
           (VStr "transaction_id") (VStr "created_at") 0 [1; 2]
           Example.id_column Example.start).
  - reflexivity.
  - vm_compute. reflexivity.
  - intros names H. discriminate H.
  - reflexivity.
  - reflexivity.
  - vm_compute. reflexivity.
Defined.
